(** * Resume-Fastapi: the field extractor and the question answerer

    A shallow embedding of [parser_utils.py] ([call_local_qa],
    [build_structured_fields] and the constants they use) and of the
    [ask_candidate] handler of [main.py], with the properties of the
    extraction heuristics and of the model / heuristic answering paths.

    Python strings are modelled as lists of 8-bit characters read as Latin-1
    code points; the classification tables of the Python runtime ([str.lower],
    [str.isspace], line boundaries, the [\w] and [\d] classes of [re]) are
    written out for that range. *)

From Stdlib Require Import Ascii String NArith ZArith Arith Bool Lia List.
From Stdlib Require Import Permutation Sorted.
Import ListNotations.

Set Implicit Arguments.
Set Warnings "-register-all".
Local Open Scope list_scope.

(** ** Python [str] *)

Definition str := list ascii.

(** A literal of the source. *)
Definition lit (s : string) : str := list_ascii_of_string s.

Arguments lit : simpl never.

Definition str_eqb (a b : str) : bool :=
  if list_eq_dec ascii_dec a b then true else false.

Definition code (c : ascii) : N := N_of_ascii c.

Definition in_range (lo hi : N) (c : ascii) : bool :=
  ((lo <=? code c) && (code c <=? hi))%N.

(** [str.lower], character by character: [A-Z] and the upper-case letters
    of the Latin-1 supplement (U+00C0..U+00DE without the multiplication
    sign U+00D7) move 32 code points up. *)
Definition lower_char (c : ascii) : ascii :=
  if in_range 65 90 c || in_range 192 214 c || in_range 216 222 c
  then ascii_of_N (code c + 32)
  else c.

Definition lower (s : str) : str := map lower_char s.

(** [str.upper]: [a-z] and U+00E0..U+00FE without the division sign U+00F7
    move 32 code points down.  Python sends U+00B5, U+00DF and U+00FF out of
    the Latin-1 range (to U+039C, "SS" and U+0178); they are left in place
    here, which no comparison with an ASCII prefix can tell apart. *)
Definition upper_char (c : ascii) : ascii :=
  if in_range 97 122 c || in_range 224 246 c || in_range 248 254 c
  then ascii_of_N (code c - 32)
  else c.

Definition upper (s : str) : str := map upper_char s.

(** [str.isspace] on one character (used by [strip] and [split]). *)
Definition is_space (c : ascii) : bool :=
  in_range 9 13 c || in_range 28 32 c || (code c =? 133)%N || (code c =? 160)%N.

(** The line boundaries of [str.splitlines]. *)
Definition is_linebreak (c : ascii) : bool :=
  in_range 10 13 c || in_range 28 30 c || (code c =? 133)%N.

(** The [\w] class of [re] on a [str] pattern: alphanumeric or underscore. *)
Definition is_word (c : ascii) : bool :=
  in_range 48 57 c || in_range 65 90 c || (code c =? 95)%N || in_range 97 122 c
  || (code c =? 170)%N || in_range 178 179 c || (code c =? 181)%N
  || in_range 185 186 c || in_range 188 190 c
  || in_range 192 214 c || in_range 216 246 c || in_range 248 255 c.

(** The [\d] class of [re]: decimal digits. *)
Definition is_digit (c : ascii) : bool := in_range 48 57 c.

Fixpoint lstrip (s : str) : str :=
  match s with
  | c :: s' => if is_space c then lstrip s' else s
  | [] => []
  end.

Definition rstrip (s : str) : str := rev (lstrip (rev s)).

(** [s.strip()] *)
Definition strip (s : str) : str := rstrip (lstrip s).

(** [s.startswith(p)] *)
Fixpoint startswith (s p : str) {struct p} : bool :=
  match p, s with
  | [], _ => true
  | a :: p', b :: s' => if ascii_dec a b then startswith s' p' else false
  | _ :: _, [] => false
  end.

(** [k in s] on strings: [k] occurs in [s] as a contiguous run. *)
Fixpoint contains (s k : str) : bool :=
  startswith s k ||
  match s with
  | [] => false
  | _ :: s' => contains s' k
  end.

(** [s.splitlines()]: [cur] holds the characters of the line being read, in
    reverse; a carriage return followed by a line feed is one boundary, and
    a boundary at the very end opens no further line. *)
Fixpoint splitlines_from (cur : str) (s : str) : list str :=
  match s with
  | [] => match cur with [] => [] | _ => [rev cur] end
  | c :: s' =>
      if is_linebreak c then
        rev cur ::
        match s' with
        | c' :: s'' =>
            if ((code c =? 13) && (code c' =? 10))%N
            then splitlines_from [] s''
            else splitlines_from [] s'
        | [] => splitlines_from [] s'
        end
      else splitlines_from (c :: cur) s'
  end.

Definition splitlines (s : str) : list str := splitlines_from [] s.

(** [s.split()]: the maximal runs of non-space characters. *)
Fixpoint split_from (cur : str) (s : str) : list str :=
  match s with
  | [] => match cur with [] => [] | _ => [rev cur] end
  | c :: s' =>
      if is_space c then
        match cur with
        | [] => split_from [] s'
        | _ => rev cur :: split_from [] s'
        end
      else split_from (c :: cur) s'
  end.

Definition split (s : str) : list str := split_from [] s.

(** The order of [str] comparison: lexicographic on code points. *)
Fixpoint str_leb (a b : str) : bool :=
  match a, b with
  | [], _ => true
  | _ :: _, [] => false
  | x :: a', y :: b' =>
      if (code x <? code y)%N then true
      else if (code x =? code y)%N then str_leb a' b'
      else false
  end.

Definition str_ltb (a b : str) : bool := str_leb a b && negb (str_eqb a b).

(** ** The patterns given to [re.search] *)

Definition is_word_opt (c : option ascii) : bool :=
  match c with
  | Some c => is_word c
  | None => false
  end.

(** [\b] between two neighbours, either of which may be missing at an end of
    the subject: exactly one side is a word character. *)
Definition at_boundary (before after : option ascii) : bool :=
  xorb (is_word_opt before) (is_word_opt after).

(** The character to the left of the position reached after reading [s],
    when [prev] was to the left before. *)
Definition last_char (prev : option ascii) (s : str) : option ascii :=
  fold_left (fun _ c => Some c) s prev.

(** One attempt of [\b w \b] with the literal [w] at the current position;
    [prev] is the character just before it. *)
Definition match_bounded_here (prev : option ascii) (w s : str) : bool :=
  at_boundary prev (hd_error s) && startswith s w
  && at_boundary (last_char prev w) (hd_error (skipn (length w) s)).

(** [re.search] with the pattern [\b(w1|...|wn)\b], every [wi] escaped: the
    start positions are tried from left to right, the alternatives in
    order. *)
Fixpoint search_bounded_from (prev : option ascii) (alts : list str) (s : str) : bool :=
  existsb (fun w => match_bounded_here prev w s) alts ||
  match s with
  | [] => false
  | c :: s' => search_bounded_from (Some c) alts s'
  end.

Definition re_search_bounded (alts : list str) (s : str) : bool :=
  search_bounded_from None alts s.

(** One attempt of [(19|20)\d{2}] at the current position. *)
Definition match_year_here (s : str) : bool :=
  (startswith s (lit "19") || startswith s (lit "20")) &&
  match skipn 2 s with
  | d1 :: d2 :: _ => is_digit d1 && is_digit d2
  | _ => false
  end.

(** [year_pattern.search] *)
Fixpoint year_pattern_search (s : str) : bool :=
  match_year_here s ||
  match s with
  | [] => false
  | _ :: s' => year_pattern_search s'
  end.

(** ** Python values, dictionaries and exceptions *)

Inductive pyval : Type :=
| VNone
| VStr (s : str)
| VList (l : list pyval)
| VDict (d : list (str * pyval)).

(** A [dict] with string keys, in insertion order. *)
Definition dict := list (str * pyval).

Fixpoint assoc (A : Type) (d : list (str * A)) (k : str) : option A :=
  match d with
  | [] => None
  | (k', v) :: d' => if str_eqb k' k then Some v else assoc d' k
  end.

(** [d.get(k)] *)
Definition dict_get (d : dict) (k : str) : pyval :=
  match assoc d k with
  | Some v => v
  | None => VNone
  end.

Definition is_nil (A : Type) (l : list A) : bool :=
  match l with
  | [] => true
  | _ :: _ => false
  end.

(** Truth value of a Python object. *)
Definition truthy (v : pyval) : bool :=
  match v with
  | VNone => false
  | VStr s => negb (is_nil s)
  | VList l => negb (is_nil l)
  | VDict d => negb (is_nil d)
  end.

Definition is_dict (v : pyval) : bool :=
  match v with VDict _ => true | _ => false end.

Definition is_list (v : pyval) : bool :=
  match v with VList _ => true | _ => false end.

Definition is_str (v : pyval) : bool :=
  match v with VStr _ => true | _ => false end.

Inductive exn : Type :=
| KeyError (key : str)
| HTTPException (status_code : nat) (detail : str).

Inductive result (A : Type) : Type :=
| Ok (a : A)
| Raise (e : exn).

Arguments Ok {A} a.
Arguments Raise {A} e.

Definition bind (A B : Type) (r : result A) (k : A -> result B) : result B :=
  match r with
  | Ok a => k a
  | Raise e => Raise e
  end.

Notation "x <- r ;; k" := (bind r (fun x => k))
  (at level 61, r at next level, right associativity).

(** An entity of the recogniser's output: a [dict] whose values are strings
    or [None]. *)
Definition entity := list (str * option str).

(** [e.get(k)]: [None] when the key is missing or its value is [None]. *)
Definition ent_get (e : entity) (k : str) : option str :=
  match assoc e k with
  | Some v => v
  | None => None
  end.

(** [e[k]] *)
Definition ent_getitem (e : entity) (k : str) : result (option str) :=
  match assoc e k with
  | Some v => Ok v
  | None => Raise (KeyError k)
  end.

Definition of_opt (o : option str) : pyval :=
  match o with
  | Some s => VStr s
  | None => VNone
  end.

(** What an f-string prints for a string or [None]. *)
Definition format_opt (o : option str) : str :=
  match o with
  | Some s => s
  | None => lit "None"
  end.

(** [ner_entities or []] *)
Definition or_empty (ner_entities : option (list entity)) : list entity :=
  match ner_entities with
  | Some l => l
  | None => []
  end.

(** ** parser_utils.py: the field extractor *)

Definition COMMON_SKILLS : list str :=
  map lit
    ["python"; "java"; "c++"; "c"; "javascript"; "sql"; "nosql"; "mongodb";
     "postgresql"; "mysql"; "pandas"; "numpy"; "scikit-learn"; "tensorflow";
     "keras"; "pytorch"; "fastapi"; "flask"; "docker"; "kubernetes"; "aws";
     "gcp"; "azure"; "html"; "css"; "react"; "node"; "spark"; "hadoop"]%string.

Definition DEGREE_KEYWORDS : list str :=
  map lit
    ["bachelor"; "bsc"; "b.tech"; "btech"; "bs"; "master"; "msc"; "m.tech";
     "mtech"; "ms"; "phd"; "diploma"]%string.

Definition INSTITUTION_WORDS : list str :=
  map lit ["university"; "college"; "institute"; "school"]%string.

Definition ROLE_KEYWORDS : list str :=
  map lit ["intern"; "engineer"; "manager"; "associate"; "analyst"; "developer"]%string.

Definition hobby_keywords : list str :=
  map lit
    ["reading"; "travelling"; "travel"; "music"; "photography"; "gaming";
     "sports"; "cricket"; "football"]%string.

(** [set.add] on a set kept as a duplicate-free list. *)
Definition set_add (x : str) (s : list str) : list str :=
  if existsb (str_eqb x) s then s else s ++ [x].

Fixpoint insert_sorted (x : str) (l : list str) : list str :=
  match l with
  | [] => [x]
  | y :: l' => if str_leb x y then x :: l else y :: insert_sorted x l'
  end.

(** [sorted] on strings. *)
Definition sorted (l : list str) : list str :=
  fold_right insert_sorted [] l.

(** [e.get("entity_group") and e.get("entity_group").upper().startswith(p)] *)
Definition group_startswith (e : entity) (p : str) : bool :=
  match ent_get e (lit "entity_group") with
  | Some g => negb (is_nil g) && startswith (upper g) p
  | None => false
  end.

(** The name loop: the word of the first entity tagged PER, then [break]. *)
Fixpoint detect_name (ents : list entity) : option str :=
  match ents with
  | [] => None
  | ent :: rest =>
      if group_startswith ent (lit "PER")
      then ent_get ent (lit "word")
      else detect_name rest
  end.

(** [[e["word"] for e in ents if <e is tagged ORG>]] *)
Fixpoint org_words (ents : list entity) : result (list (option str)) :=
  match ents with
  | [] => Ok []
  | e :: rest =>
      if group_startswith e (lit "ORG") then
        w <- ent_getitem e (lit "word") ;;
        ws <- org_words rest ;;
        Ok (w :: ws)
      else org_words rest
  end.

(** The skills loop over [COMMON_SKILLS]. *)
Definition find_skills (lower_text : str) : list str :=
  fold_left
    (fun found_skills skill =>
       if re_search_bounded [skill] lower_text
       then set_add skill found_skills
       else found_skills)
    COMMON_SKILLS [].

(** The education loop over the lines of the text. *)
Definition scan_edu_lines (text : str) : list str :=
  fold_left
    (fun edu_lines line =>
       if existsb (fun k => contains (lower line) k) DEGREE_KEYWORDS
          || re_search_bounded INSTITUTION_WORDS (lower line)
       then if 5 <? length (strip line)
            then edu_lines ++ [strip line]
            else edu_lines
       else edu_lines)
    (splitlines text) [].

(** The experience loop over the lines of the text. *)
Definition scan_experiences (text : str) : list str :=
  fold_left
    (fun experiences line =>
       let l := strip line in
       if length l =? 0 then experiences
       else if year_pattern_search l
               && existsb (fun k => contains (lower l) k) ROLE_KEYWORDS
            then experiences ++ [l]
            else experiences)
    (splitlines text) [].

(** The certifications and projects loop: both lists in one pass. *)
Definition scan_certs_projects (text : str) : list str * list str :=
  fold_left
    (fun '(certs, projects) line =>
       let low := lower line in
       let certs :=
         if contains low (lit "certif") || contains low (lit "course")
            || contains low (lit "certificate")
         then certs ++ [strip line] else certs in
       let projects :=
         if contains low (lit "project") || contains low (lit "github.com")
         then projects ++ [strip line] else projects in
       (certs, projects))
    (splitlines text) ([], []).

(** The hobbies loop over [hobby_keywords]. *)
Definition find_hobbies (lower_text : str) : list str :=
  fold_left
    (fun hobbies h =>
       if re_search_bounded [h] lower_text then hobbies ++ [h] else hobbies)
    hobby_keywords [].

(** The introduction loop: the first line longer than 30 once stripped. *)
Fixpoint find_intro (lines : list str) : str :=
  match lines with
  | [] => []
  | line :: rest =>
      if 30 <? length (strip line) then strip line else find_intro rest
  end.

(** The dictionary literal of the return value. *)
Definition structured
    (name : option str) (education : dict) (experiences found_skills : list str)
    (hobbies certs projects : list str) (intro : str) : dict :=
  [ (lit "name", VStr (match name with Some n => n | None => [] end));
    (lit "education", VDict education);
    (lit "experience",
      VDict (if negb (is_nil experiences)
             then [(lit "summary_lines", VList (map VStr experiences))]
             else []));
    (lit "skills", VList (map VStr (sorted found_skills)));
    (lit "hobbies", VList (map VStr hobbies));
    (lit "certifications", VList (map VStr certs));
    (lit "projects", VList (map VStr projects));
    (lit "introduction", VStr intro) ].

Definition build_structured_fields
    (text : str) (ner_entities : option (list entity)) : result dict :=
  let lower_text := lower text in
  let name := detect_name (or_empty ner_entities) in
  let found_skills := find_skills lower_text in
  let edu_lines := scan_edu_lines text in
  education <-
    (if negb (is_nil edu_lines)
     then Ok [(lit "entries", VList (map VStr edu_lines))]
     else
       orgs <- org_words (or_empty ner_entities) ;;
       Ok (if negb (is_nil orgs)
           then [(lit "entries", VList (map of_opt (firstn 3 orgs)))]
           else [])) ;;
  let experiences := scan_experiences text in
  orgs <- org_words (or_empty ner_entities) ;;
  let experiences :=
    fold_left
      (fun experiences o => experiences ++ [lit "Worked at " ++ format_opt o])
      (firstn 5 orgs) experiences in
  let '(certs, projects) := scan_certs_projects text in
  let hobbies := find_hobbies lower_text in
  let intro := find_intro (splitlines text) in
  Ok (structured name education experiences found_skills
        hobbies certs projects intro).

(** ** parser_utils.py: the question answerer *)

(** The question-answering pipeline, called with a question, a context and
    [top_k]: it returns a value, or raises an exception [e], kept as the
    text of [str(e)]. *)
Definition pipeline := str -> str -> nat -> pyval + str.

(** The module's globals after [try_load_models]. *)
Record models : Type := {
  models_loaded : bool;
  qa_pipeline : option pipeline
}.

Definition max_context : Z := 20000.

(** [len(s)] *)
Definition len (s : str) : Z := Z.of_nat (length s).

(** [s[i:]]: a negative [i] counts from the end, and an index before the
    start is the start. *)
Definition slice_from (i : Z) (s : str) : str :=
  skipn (Z.to_nat (if (i <? 0)%Z then Z.max 0 (len s + i) else i)) s.

Definition NO_ANSWER : str := lit "No clear answer found in stored data.".

(** The context given to the pipeline: [context] itself, or
    [context[-max_context:]]. *)
Definition model_context (context : str) : str :=
  if (len context <=? max_context)%Z
  then context
  else slice_from (- max_context) context.

(** The fallback loop over the lines of the context. *)
Definition scan_candidates (q context : str) : list str :=
  fold_left
    (fun candidates line =>
       if length (strip line) <? 3 then candidates
       else if existsb (fun word => contains (lower line) word)
                 (firstn 3 (split q))
            then candidates ++ [strip line]
            else candidates)
    (splitlines context) [].

Definition call_local_qa
    (m : models) (question context : str) (top_k : nat) : pyval :=
  match (if models_loaded m then qa_pipeline m else None) with
  | Some qa =>
      let ctx := model_context context in
      match qa question ctx top_k with
      | inl res => res
      | inr e => VDict [(lit "error", VStr e)]
      end
  | None =>
      let q := lower question in
      match scan_candidates q context with
      | c :: _ => VDict [(lit "answer", VStr c)]
      | [] => VDict [(lit "answer", VStr NO_ANSWER)]
      end
  end.

(** ** main.py: the handler of /ask *)

(** ["\n".join(parts)] *)
Fixpoint join_lines (parts : list str) : str :=
  match parts with
  | [] => []
  | [p] => p
  | p :: rest => p ++ lit "
" ++ join_lines rest
  end.

Definition NL : str := lit "
".

Section Handler.

(** [str(v)] for a list or a dictionary, as the runtime prints it. *)
Variable py_repr : pyval -> str.

(** [str(v)], and what an f-string prints for [v]. *)
Definition py_str (v : pyval) : str :=
  match v with
  | VStr s => s
  | VNone => lit "None"
  | _ => py_repr v
  end.

(** One block of the context, for a field whose value [val] is truthy. *)
Definition context_part (key : str) (val : pyval) : str :=
  match val with
  | VDict items =>
      fold_left
        (fun part '(k, v) => part ++ k ++ lit ": " ++ py_str v ++ NL)
        items (upper key ++ lit ":" ++ NL)
  | VList l =>
      upper key ++ lit ":" ++ NL ++ join_lines (map py_str l) ++ NL
  | _ => upper key ++ lit ":" ++ NL ++ py_str val ++ NL
  end.

Definition CONTEXT_KEYS : list str :=
  map lit ["introduction"; "education"; "experience"; "skills";
           "certifications"; "projects"; "hobbies"]%string.

Definition build_context (d : dict) : str :=
  join_lines
    (fold_left
       (fun context_parts key =>
          let val := dict_get d key in
          if truthy val
          then context_parts ++ [context_part key val]
          else context_parts)
       CONTEXT_KEYS []).

(** The normalisation of the answerer's reply, inside the [try]: the
    answer, or [inr msg] for [raise Exception(msg)]. *)
Definition normalize_response (hf_resp : pyval) : pyval + str :=
  match hf_resp with
  | VDict d =>
      if truthy (dict_get d (lit "answer"))
      then inl (dict_get d (lit "answer"))
      else if truthy (dict_get d (lit "error"))
           then inr (py_str (dict_get d (lit "error")))
           else inl (VStr (py_str hf_resp))
  | VList (first :: _) =>
      match first with
      | VDict d0 =>
          if truthy (dict_get d0 (lit "answer"))
          then inl (dict_get d0 (lit "answer"))
          else inl (VStr (py_str first))
      | _ => inl (VStr (py_str first))
      end
  | _ => inl (VStr (py_str hf_resp))
  end.

(** [ask_candidate]; [find_one] is the lookup in the candidates
    collection, [question] the request body. *)
Definition ask_candidate
    (m : models) (find_one : str -> option dict)
    (candidate_id : str) (question : entity) : result dict :=
  match ent_get question (lit "question") with
  | None | Some [] =>
      Raise (HTTPException 400 (lit "Missing 'question' in body"))
  | Some q =>
      match find_one candidate_id with
      | None | Some [] => Raise (HTTPException 404 (lit "Candidate not found"))
      | Some d =>
          let context := build_context d in
          match normalize_response (call_local_qa m q context 1) with
          | inl answer =>
              Ok [ (lit "candidate_id", VStr candidate_id);
                   (lit "question", VStr q);
                   (lit "answer", answer) ]
          | inr e =>
              Raise (HTTPException 500 (lit "QA failed: " ++ e))
          end
      end
  end.

End Handler.

(** ** The vocabulary of the specification *)

(** [k] occurs in [s] as a contiguous run of characters. *)
Definition occurs_in (k s : str) : Prop :=
  exists pre post, s = pre ++ k ++ post.

(** [k] occurs in [s] up to letter case: some run of [s] and [k] have the
    same lower-case form. *)
Definition occurs_ci (k s : str) : Prop :=
  exists pre mid post, s = pre ++ mid ++ post /\ lower mid = lower k.

(** [w] occurs in [s] delimited by word boundaries on both sides. *)
Definition whole_word_in (w s : str) : Prop :=
  exists pre post,
    s = pre ++ w ++ post
    /\ at_boundary (last_char None pre) (hd_error (w ++ post)) = true
    /\ at_boundary (last_char None (pre ++ w)) (hd_error post) = true.

(** [a] comes no later than [b] in the order of [str]. *)
Definition str_le (a b : str) : Prop := str_leb a b = true.

(** [s] holds "19" or "20" followed by two decimal digits. *)
Definition year_in (s : str) : Prop :=
  exists pre c d1 d2 post,
    s = pre ++ c ++ [d1; d2] ++ post
    /\ (c = lit "19" \/ c = lit "20")
    /\ is_digit d1 = true /\ is_digit d2 = true.

(** The category tag of [e] begins with [tag], up to letter case. *)
Definition tagged (tag : str) (e : entity) : Prop :=
  exists g p rest,
    ent_get e (lit "entity_group") = Some g
    /\ g = p ++ rest /\ lower p = lower tag.

(** A line of the text counts for education. *)
Definition education_line (line : str) : Prop :=
  5 < length (strip line)
  /\ ((exists k, In k DEGREE_KEYWORDS /\ occurs_ci k line)
      \/ (exists w, In w INSTITUTION_WORDS /\ whole_word_in w (lower line))).

(** A line of the text counts for experience. *)
Definition experience_line (line : str) : Prop :=
  year_in (strip line)
  /\ exists k, In k ROLE_KEYWORDS /\ occurs_ci k (strip line).

Definition certification_line (line : str) : Prop :=
  occurs_ci (lit "certif") line \/ occurs_ci (lit "course") line
  \/ occurs_ci (lit "certificate") line.

Definition project_line (line : str) : Prop :=
  occurs_ci (lit "project") line \/ occurs_ci (lit "github.com") line.

(** A line of the context answers a question with the keywords [kws]. *)
Definition answer_line (kws : list str) (line : str) : Prop :=
  3 <= length (strip line) /\ exists w, In w kws /\ occurs_ci w line.

(** The condition [_models_loaded and qa_pipeline] of the answerer. *)
Definition model_available (m : models) : bool :=
  models_loaded m && match qa_pipeline m with Some _ => true | None => false end.

(** The globals when no model could be loaded. *)
Definition NO_MODELS : models :=
  {| models_loaded := false; qa_pipeline := None |}.

(** The words of the entities that [sel] keeps, in sequence order. *)
Definition words_of (sel : entity -> bool) (ents : list entity) : list (option str) :=
  map (fun e => ent_get e (lit "word")) (filter sel ents).

(** The keys of the candidate record, with the test of each field's type. *)
Definition SCHEMA : list (str * (pyval -> bool)) :=
  [ (lit "name", is_str); (lit "education", is_dict);
    (lit "experience", is_dict); (lit "skills", is_list);
    (lit "hobbies", is_list); (lit "certifications", is_list);
    (lit "projects", is_list); (lit "introduction", is_str) ].

(** The record with every field at its default. *)
Definition EMPTY_RECORD : dict :=
  [ (lit "name", VStr []); (lit "education", VDict []);
    (lit "experience", VDict []); (lit "skills", VList []);
    (lit "hobbies", VList []); (lit "certifications", VList []);
    (lit "projects", VList []); (lit "introduction", VStr []) ].

(** Every entity tagged ORG has the key "word". *)
Definition org_words_present (ents : list entity) : Prop :=
  Forall
    (fun e => group_startswith e (lit "ORG") = true -> assoc e (lit "word") <> None)
    ents.

(** ** Sample inputs *)

(** A pipeline whose every call raises an exception with the text "boom". *)
Definition FAILING_QA : pipeline := fun _ _ _ => inr (lit "boom").

(** A pipeline that answers with the context it was given. *)
Definition ECHO_QA : pipeline :=
  fun _ ctx _ => inl (VDict [(lit "answer", VStr ctx)]).

Definition MODELS_FAILING : models :=
  {| models_loaded := true; qa_pipeline := Some FAILING_QA |}.

Definition MODELS_ECHO : models :=
  {| models_loaded := true; qa_pipeline := Some ECHO_QA |}.

(** A stand-in for the runtime's printer of lists and dictionaries. *)
Definition SAMPLE_REPR (v : pyval) : str := lit "[...]".

Definition SAMPLE_DOC : dict :=
  [ (lit "candidate_id", VStr (lit "c1"));
    (lit "introduction", VStr (lit "Graduated from State University in 2015")) ].

Definition SAMPLE_FIND_ONE (candidate_id : str) : option dict :=
  if str_eqb candidate_id (lit "c1") then Some SAMPLE_DOC else None.

Definition SAMPLE_BODY : entity :=
  [(lit "question", Some (lit "What university did she attend"))].

Definition SAMPLE_CONTEXT : str :=
  lit "INTRODUCTION:" ++ NL ++ lit "Graduated from State University in 2015" ++ NL.

Definition SAMPLE_RESUME : str :=
  lit "Jane Doe" ++ NL
  ++ lit "  BSc in Computer Science, State University  " ++ NL
  ++ lit "Software Engineer at Acme, 2019-2021" ++ NL
  ++ lit "Skills: Python, python, SQL and C++" ++ NL
  ++ lit "Completed a certificate project on github.com" ++ NL
  ++ lit "Completed a certificate project on github.com".

Definition SAMPLE_ENTITIES : list entity :=
  [ [(lit "word", Some (lit "Jane Doe")); (lit "entity_group", Some (lit "PER"))];
    [(lit "word", Some (lit "Acme")); (lit "entity_group", Some (lit "ORG"))];
    [(lit "word", Some (lit "Beta")); (lit "entity_group", Some (lit "org"))];
    [(lit "word", None); (lit "entity_group", Some (lit "ORG"))];
    [(lit "word", Some (lit "Delta")); (lit "entity_group", Some (lit "ORG"))] ].

(** ** parser_utils.py: loading the models, entity recognition, PDF text *)

(** [s[:n]]: a negative [n] counts from the end. *)
Definition slice_to (n : Z) (s : str) : str :=
  firstn (Z.to_nat (if (n <? 0)%Z then Z.max 0 (len s + n) else n)) s.

(** [s.endswith(p)] *)
Definition endswith (s p : str) : bool := startswith (rev s) (rev p).

(** The entity-recognition pipeline, called on a text: the entities it
    returns, or the text of the exception it raises. *)
Definition ner_pipe := str -> list entity + str.

(** The globals of the module: [ner_pipeline], and [qa_pipeline] with
    [_models_loaded]. *)
Record globals : Type := {
  ner_pipeline : option ner_pipe;
  qa_models : models
}.

(** The globals as the module declares them. *)
Definition INITIAL_GLOBALS : globals :=
  {| ner_pipeline := None; qa_models := NO_MODELS |}.

(** [try_load_models]; [load_ner] and [load_qa] are the outcomes of the two
    calls of [pipeline], [None] when the call raises. *)
Definition try_load_models
    (TRANSFORMERS_AVAILABLE : bool)
    (load_ner : option ner_pipe) (load_qa : option pipeline)
    (g : globals) : globals :=
  if models_loaded (qa_models g) then g
  else if negb TRANSFORMERS_AVAILABLE then
    {| ner_pipeline := ner_pipeline g;
       qa_models := {| models_loaded := false;
                       qa_pipeline := qa_pipeline (qa_models g) |} |}
  else
    match load_ner, load_qa with
    | Some ner, Some qa =>
        {| ner_pipeline := Some ner;
           qa_models := {| models_loaded := true; qa_pipeline := Some qa |} |}
    | _, _ =>
        {| ner_pipeline := None;
           qa_models := {| models_loaded := false; qa_pipeline := None |} |}
    end.

(** One call of [try_load_models] with what it finds: whether transformers
    could be imported, and the outcomes of the two loads. *)
Definition load_attempt : Type := bool * option ner_pipe * option pipeline.

(** The calls of [try_load_models] made in a row (on import of the module,
    then from main.py). *)
Definition load_attempts (attempts : list load_attempt) (g : globals) : globals :=
  fold_left
    (fun g '(available, load_ner, load_qa) =>
       try_load_models available load_ner load_qa g)
    attempts g.

Definition max_chunk : Z := 45000.

(** Truth value of a string or [None]. *)
Definition opt_truthy (o : option str) : bool :=
  match o with
  | Some (_ :: _) => true
  | _ => false
  end.

(** The dictionary appended for one entity [e] of the pipeline. *)
Definition normalize_entity (e : entity) : entity :=
  let word :=
    match assoc e (lit "word") with
    | Some _ => ent_get e (lit "word")
    | None => ent_get e (lit "entity")
    end in
  [ (lit "word", word);
    (lit "entity_group",
      if opt_truthy (ent_get e (lit "entity_group"))
      then ent_get e (lit "entity_group")
      else ent_get e (lit "entity")) ].

Definition call_local_ner (g : globals) (text : str) : list entity :=
  match (if models_loaded (qa_models g) then ner_pipeline g else None) with
  | Some ner =>
      let text_to_use := slice_to max_chunk text in
      match ner text_to_use with
      | inl ents =>
          fold_left
            (fun normalized e => normalized ++ [normalize_entity e])
            ents []
      | inr _ => []
      end
  | None => []
  end.

(** [extract_text_from_pdf]; [fitz_open] gives the texts of the pages of
    the document at a path, or the text of the exception raised. *)
Definition extract_text_from_pdf
    (fitz_open : str -> list str + str) (file_path : str) : str + str :=
  match fitz_open file_path with
  | inl pages =>
      inl (join_lines
             (fold_left
                (fun text_parts text =>
                   if negb (is_nil text) then text_parts ++ [text] else text_parts)
                pages []))
  | inr e => inr e
  end.

(** ** main.py: upload, listing and lookup *)

Definition TMP_DIR : str := lit "/tmp/resumes".

(** [os.path.join(a, b)] on POSIX paths. *)
Definition os_path_join (a b : str) : str :=
  if startswith b (lit "/") then b
  else if is_nil a || endswith a (lit "/") then a ++ b
  else a ++ lit "/" ++ b.

(** [d[k] = v]: the value is replaced where the key stands, a new key goes
    to the end. *)
Fixpoint dict_set (d : dict) (k : str) (v : pyval) : dict :=
  match d with
  | [] => [(k, v)]
  | (k', v') :: d' =>
      if str_eqb k' k then (k', v) :: d' else (k', v') :: dict_set d' k v
  end.

(** [{**d, **extra}] *)
Definition dict_update (d extra : dict) : dict :=
  fold_left (fun d '(k, v) => dict_set d k v) extra d.

(** [d.get(k, default)] *)
Definition dict_get_default (d : dict) (k : str) (default : pyval) : pyval :=
  match assoc d k with
  | Some v => v
  | None => default
  end.

Inductive response : Type :=
| JSONResponse (status_code : nat) (content : dict).

(** What the outside world hands to one upload: the identifiers drawn, the
    replies of the storage and of the metadata table (or the text of the
    exception raised), the clock, and the exception of the insertion into
    the candidates collection, if any.  The temporary file is taken to be
    written. *)
Record upload_io : Type := {
  io_uid : str;
  io_fitz_open : str -> list str + str;
  io_docx2txt : str -> str + str;
  io_storage_upload : pyval + str;
  io_metadata_insert : pyval + str;
  io_fresh_id : str;
  io_now : pyval;
  io_insert_one : option str
}.

(** The identifier kept after the insertion into "resumes_metadata": every
    exception of that block ends in a fresh identifier. *)
Definition metadata_id_of (insert_res : pyval + str) (fresh : str) : pyval :=
  match insert_res with
  | inr _ => VStr fresh
  | inl res =>
      if is_dict res && truthy (match res with VDict d => dict_get d (lit "error") | _ => VNone end)
      then VStr fresh
      else
        let supa_data :=
          match res with
          | VDict d => dict_get d (lit "data")
          | _ => res
          end in
        match supa_data with
        | VList (first :: _) =>
            match first with
            | VDict row =>
                if truthy (dict_get row (lit "id"))
                then dict_get row (lit "id")
                else dict_get row (lit "metadata_id")
            | _ => VStr fresh
            end
        | VDict d =>
            if truthy (dict_get d (lit "id"))
            then dict_get d (lit "id")
            else VStr fresh
        | _ => VStr fresh
        end
  end.

Section Upload.

Variable py_repr : pyval -> str.

Definition upload_resume
    (g : globals) (io : upload_io) (filename : str) : result (dict * response) :=
  if negb (endswith (lower filename) (lit ".pdf")
           || endswith (lower filename) (lit ".docx"))
  then Raise (HTTPException 400 (lit "Only .pdf and .docx allowed"))
  else
    let uid := io_uid io in
    let tmp_path := os_path_join TMP_DIR (uid ++ lit "_" ++ filename) in
    match (if endswith (lower filename) (lit ".pdf")
           then extract_text_from_pdf (io_fitz_open io) tmp_path
           else io_docx2txt io tmp_path) with
    | inr e => Raise (HTTPException 500 (lit "Text extraction failed: " ++ e))
    | inl text =>
        let ner_text := slice_to 45000 text in
        let ner_resp := call_local_ner g ner_text in
        structured_data <- build_structured_fields text (Some ner_resp) ;;
        let storage_path := uid ++ lit "/" ++ filename in
        match io_storage_upload io with
        | inr e => Raise (HTTPException 500 (lit "Supabase upload error: " ++ e))
        | inl res =>
            checked <-
            match res with
            | VDict d =>
                if truthy (dict_get d (lit "error"))
                then Raise (HTTPException 500
                              (lit "Supabase upload error: "
                               ++ py_str py_repr (dict_get d (lit "error"))))
                else Ok res
            | _ => Ok res
            end ;;
            let metadata_id :=
              metadata_id_of (io_metadata_insert io) (io_fresh_id io) in
            let candidate_doc :=
              dict_update
                [ (lit "candidate_id", metadata_id);
                  (lit "file_name", VStr filename);
                  (lit "storage_path", VStr storage_path);
                  (lit "uploaded_at", io_now io);
                  (lit "raw_text_snippet", VStr (slice_to 3000 text)) ]
                structured_data in
            match io_insert_one io with
            | Some e => Raise (HTTPException 500 (lit "MongoDB insert failed: " ++ e))
            | None =>
                Ok (candidate_doc,
                    JSONResponse 201
                      [ (lit "message", VStr (lit "Uploaded and processed"));
                        (lit "candidate_id", metadata_id) ])
            end
        end
    end.

End Upload.

(** [list_candidates]; [docs] is what the cursor over the collection
    yields. *)
Definition list_candidates (docs : list dict) : list dict :=
  fold_left
    (fun results d =>
       results ++
       [[ (lit "candidate_id", dict_get d (lit "candidate_id"));
          (lit "name", dict_get_default d (lit "name") (VStr []));
          (lit "skills", dict_get_default d (lit "skills") (VList []));
          (lit "uploaded_at", dict_get d (lit "uploaded_at"));
          (lit "brief_intro", dict_get_default d (lit "introduction") (VStr [])) ]])
    docs [].

Definition get_candidate
    (find_one : str -> option dict) (candidate_id : str) : result dict :=
  match find_one candidate_id with
  | None | Some [] => Raise (HTTPException 404 (lit "Candidate not found"))
  | Some d => Ok d
  end.

(** ** The vocabulary of the upload *)

(** The file name ends, up to letter case, with ".pdf" or ".docx". *)
Definition allowed_extension (filename : str) : bool :=
  endswith (lower filename) (lit ".pdf") || endswith (lower filename) (lit ".docx").

(** What the extraction of an upload gives: the text, or the text of the
    exception. *)
Definition upload_text (io : upload_io) (filename : str) : str + str :=
  let tmp_path := os_path_join TMP_DIR (io_uid io ++ lit "_" ++ filename) in
  if endswith (lower filename) (lit ".pdf")
  then extract_text_from_pdf (io_fitz_open io) tmp_path
  else io_docx2txt io tmp_path.

(** The storage took the file: no exception, and no reply holding an
    error. *)
Definition storage_accepted (io : upload_io) : bool :=
  match io_storage_upload io with
  | inl (VDict d) => negb (truthy (dict_get d (lit "error")))
  | inl _ => true
  | inr _ => false
  end.

(** The keys that an upload puts before the fields of the record. *)
Definition UPLOAD_KEYS : list str :=
  map lit ["candidate_id"; "file_name"; "storage_path"; "uploaded_at";
           "raw_text_snippet"]%string.

(** ** Sample inputs of the upload *)

(** A recogniser that returns the sample entities for every text. *)
Definition SAMPLE_NER : ner_pipe := fun _ => inl SAMPLE_ENTITIES.

(** A recogniser whose every call raises. *)
Definition FAILING_NER : ner_pipe := fun _ => inr (lit "boom").

Definition GLOBALS_LOADED : globals :=
  {| ner_pipeline := Some SAMPLE_NER; qa_models := MODELS_ECHO |}.

Definition GLOBALS_NER_FAILING : globals :=
  {| ner_pipeline := Some FAILING_NER; qa_models := MODELS_ECHO |}.

(** A pipeline whose reply holds an empty answer. *)
Definition EMPTY_ANSWER_QA : pipeline :=
  fun _ _ _ => inl (VDict [(lit "answer", VStr [])]).

Definition MODELS_EMPTY_ANSWER : models :=
  {| models_loaded := true; qa_pipeline := Some EMPTY_ANSWER_QA |}.

(** The pages of a document: the second has no text. *)
Definition SAMPLE_PAGES : list str :=
  [ lit "Jane Doe" ++ NL ++ lit "Skills: Python and SQL";
    [];
    lit "Hobbies: reading and cricket" ].

Definition SAMPLE_IO : upload_io :=
  {| io_uid := lit "u1";
     io_fitz_open := fun _ => inl SAMPLE_PAGES;
     io_docx2txt := fun _ => inr (lit "not a docx file");
     io_storage_upload := inl VNone;
     io_metadata_insert := inr (lit "table missing");
     io_fresh_id := lit "f1";
     io_now := VStr (lit "2024-01-01 00:00:00");
     io_insert_one := None |}.

Definition SAMPLE_FILENAME : str := lit "CV.PDF".

Definition UNTAGGED_ENTITIES : list entity :=
  [ [(lit "word", Some (lit "Paris")); (lit "entity_group", Some (lit "LOC"))];
    [(lit "word", Some (lit "Python")); (lit "entity_group", None)] ].

(** ** Lists, characters and strings *)

Section ListFacts.

Variables A B : Type.

(** A loop that appends [f x] for the elements [x] passing a test builds
    the filtered list, in order. *)
Lemma fold_left_collect (step : list B -> A -> list B) (p : A -> bool) (f : A -> B) :
  (forall acc x, step acc x = if p x then acc ++ [f x] else acc) ->
  forall l acc, fold_left step l acc = acc ++ map f (filter p l).
Proof.
  intros Hstep l.
  induction l as [|x l IH]; intros acc; simpl.
  - now rewrite app_nil_r.
  - rewrite IH, Hstep.
    destruct (p x); simpl; [now rewrite <- app_assoc|reflexivity].
Qed.

Lemma fold_left_snoc (f : A -> B) (l : list A) (acc : list B) :
  fold_left (fun acc x => acc ++ [f x]) l acc = acc ++ map f l.
Proof.
  revert acc.
  induction l as [|x l IH]; intros acc; simpl.
  - now rewrite app_nil_r.
  - rewrite IH. now rewrite <- app_assoc.
Qed.

(** The first element kept by a filter, with what comes before it. *)
Lemma filter_first (p : A -> bool) (l : list A) :
  match filter p l with
  | x :: _ =>
      exists pre post,
        l = pre ++ x :: post /\ p x = true
        /\ forall y, In y pre -> p y = false
  | [] => forall y, In y l -> p y = false
  end.
Proof.
  induction l as [|a l IH]; simpl.
  - intros y [].
  - destruct (p a) eqn:Ha.
    + exists [], l. repeat split; auto. intros y [].
    + destruct (filter p l) as [|x rest].
      * intros y [<-|Hy]; auto.
      * destruct IH as (pre & post & -> & Hx & Hpre).
        exists (a :: pre), post. repeat split; auto.
        intros y [<-|Hy]; auto.
Qed.

Lemma filter_all_false (p : A -> bool) (l : list A) :
  (forall x, p x = false) -> filter p l = [].
Proof.
  intros H. induction l as [|x l IH]; simpl; [reflexivity|].
  now rewrite H.
Qed.

End ListFacts.

Lemma str_eqb_eq (a b : str) : str_eqb a b = true <-> a = b.
Proof.
  unfold str_eqb. destruct (list_eq_dec ascii_dec a b); split; congruence.
Qed.

Lemma str_eqb_refl (a : str) : str_eqb a a = true.
Proof. now apply str_eqb_eq. Qed.

Lemma str_eqb_neq (a b : str) : str_eqb a b = false <-> a <> b.
Proof.
  unfold str_eqb. destruct (list_eq_dec ascii_dec a b); split; congruence.
Qed.

Ltac each_char c :=
  destruct c as [[] [] [] [] [] [] [] []]; try reflexivity; try discriminate.

Lemma lower_char_idem (c : ascii) : lower_char (lower_char c) = lower_char c.
Proof. each_char c. Qed.

Lemma lower_upper_char (c : ascii) : lower_char (upper_char c) = lower_char c.
Proof. each_char c. Qed.

Lemma upper_lower_char (c : ascii) : upper_char (lower_char c) = upper_char c.
Proof. each_char c. Qed.

Lemma lower_char_space (c : ascii) : is_space (lower_char c) = is_space c.
Proof. each_char c. Qed.

Lemma lower_idem (s : str) : lower (lower s) = lower s.
Proof.
  unfold lower. rewrite map_map. apply map_ext. exact lower_char_idem.
Qed.

Lemma lower_app (a b : str) : lower (a ++ b) = lower a ++ lower b.
Proof. apply map_app. Qed.

Lemma lower_upper (s : str) : lower (upper s) = lower s.
Proof.
  unfold lower, upper. rewrite map_map. apply map_ext. exact lower_upper_char.
Qed.

Lemma upper_lower (s : str) : upper (lower s) = upper s.
Proof.
  unfold lower, upper. rewrite map_map. apply map_ext. exact upper_lower_char.
Qed.

Lemma startswith_iff (s p : str) :
  startswith s p = true <-> exists post, s = p ++ post.
Proof.
  revert s. induction p as [|a p IH]; intros s; simpl.
  - split; [exists s; reflexivity | reflexivity].
  - destruct s as [|b s].
    + split; [discriminate | intros [post H]; discriminate].
    + destruct (ascii_dec a b) as [->|Hab].
      * rewrite IH. split; intros [post H]; exists post; congruence.
      * split; [discriminate | intros [post H]; congruence].
Qed.

Lemma contains_unfold (s k : str) :
  contains s k = startswith s k || match s with [] => false | _ :: s' => contains s' k end.
Proof. destruct s; reflexivity. Qed.

Lemma contains_iff (s k : str) : contains s k = true <-> occurs_in k s.
Proof.
  unfold occurs_in. induction s as [|c s IH].
  - simpl. rewrite orb_false_r, startswith_iff. split.
    + intros [post H]. exists [], post. exact H.
    + intros (pre & post & H). destruct pre; [now exists post|discriminate].
  - rewrite contains_unfold, orb_true_iff, startswith_iff, IH. split.
    + intros [[post H]|(pre & post & H)].
      * exists [], post. exact H.
      * exists (c :: pre), post. simpl. now rewrite H.
    + intros (pre & post & H). destruct pre as [|c' pre].
      * left. now exists post.
      * right. exists pre, post. simpl in H. congruence.
Qed.

(** The test [k in s.lower()] of the source, for a keyword already in lower
    case, is the occurrence of [k] in [s] up to letter case. *)
Lemma contains_lower_iff (s k : str) :
  lower k = k -> (contains (lower s) k = true <-> occurs_ci k s).
Proof.
  intros Hk. rewrite contains_iff. unfold occurs_in, occurs_ci. split.
  - intros (pre & post & H).
    apply map_eq_app in H. destruct H as (s1 & s2 & -> & H1 & H2).
    apply map_eq_app in H2. destruct H2 as (s3 & s4 & -> & H3 & H4).
    exists s1, s3, s4. split; [reflexivity|]. unfold lower in *. congruence.
  - intros (pre & mid & post & -> & H).
    exists (lower pre), (lower post).
    now rewrite !lower_app, H, Hk.
Qed.

Lemma last_char_app (prev : option ascii) (a b : str) :
  last_char prev (a ++ b) = last_char (last_char prev a) b.
Proof. apply fold_left_app. Qed.

Lemma match_bounded_here_iff (prev : option ascii) (w s : str) :
  match_bounded_here prev w s = true <->
  exists post,
    s = w ++ post
    /\ at_boundary prev (hd_error (w ++ post)) = true
    /\ at_boundary (last_char prev w) (hd_error post) = true.
Proof.
  unfold match_bounded_here. rewrite !andb_true_iff, startswith_iff. split.
  - intros [[H1 [post ->]] H3]. exists post.
    rewrite skipn_app, skipn_all, Nat.sub_diag in H3. simpl in H3. auto.
  - intros (post & -> & H1 & H2).
    rewrite skipn_app, skipn_all, Nat.sub_diag. simpl. eauto.
Qed.

Lemma search_bounded_from_unfold (prev : option ascii) (alts : list str) (s : str) :
  search_bounded_from prev alts s
  = existsb (fun w => match_bounded_here prev w s) alts
    || match s with [] => false | c :: s' => search_bounded_from (Some c) alts s' end.
Proof. destruct s; reflexivity. Qed.

Lemma search_bounded_from_iff (prev : option ascii) (alts : list str) (s : str) :
  search_bounded_from prev alts s = true <->
  exists w pre post,
    In w alts /\ s = pre ++ w ++ post
    /\ at_boundary (last_char prev pre) (hd_error (w ++ post)) = true
    /\ at_boundary (last_char prev (pre ++ w)) (hd_error post) = true.
Proof.
  revert prev. induction s as [|c s IH]; intros prev;
    rewrite search_bounded_from_unfold, orb_true_iff, existsb_exists.
  - split.
    + intros [(w & Hw & H)|H]; [|discriminate].
      apply match_bounded_here_iff in H. destruct H as (post & H & H1 & H2).
      exists w, [], post. auto.
    + intros (w & pre & post & Hw & H & H1 & H2). left.
      destruct pre; [|discriminate]. exists w. split; [exact Hw|].
      apply match_bounded_here_iff. exists post. auto.
  - rewrite IH. split.
    + intros [(w & Hw & H)|(w & pre & post & Hw & H & H1 & H2)].
      * apply match_bounded_here_iff in H. destruct H as (post & H & H1 & H2).
        exists w, [], post. auto.
      * exists w, (c :: pre), post. simpl. rewrite H. auto.
    + intros (w & pre & post & Hw & H & H1 & H2). destruct pre as [|c' pre].
      * left. exists w. split; [exact Hw|].
        apply match_bounded_here_iff. exists post. auto.
      * right. simpl in H. injection H as <- H.
        exists w, pre, post. auto.
Qed.

(** [re.search] with a bounded alternation finds a whole word of the list. *)
Lemma re_search_bounded_iff (alts : list str) (s : str) :
  re_search_bounded alts s = true <-> exists w, In w alts /\ whole_word_in w s.
Proof.
  unfold re_search_bounded, whole_word_in. rewrite search_bounded_from_iff.
  split.
  - intros (w & pre & post & Hw & H). exists w. split; [exact Hw|]. now exists pre, post.
  - intros (w & Hw & pre & post & H). now exists w, pre, post.
Qed.

Lemma re_search_word_iff (w s : str) :
  re_search_bounded [w] s = true <-> whole_word_in w s.
Proof.
  rewrite re_search_bounded_iff. split.
  - intros (w' & [<-|[]] & H). exact H.
  - intros H. exists w. split; [now left|exact H].
Qed.

Lemma match_year_here_iff (s : str) :
  match_year_here s = true <->
  exists c d1 d2 post,
    s = c ++ [d1; d2] ++ post
    /\ (c = lit "19" \/ c = lit "20")
    /\ is_digit d1 = true /\ is_digit d2 = true.
Proof.
  unfold match_year_here.
  rewrite andb_true_iff, orb_true_iff, !startswith_iff. split.
  - intros [[[post ->]|[post ->]] H]; simpl in H;
      destruct post as [|d1 [|d2 post]]; try discriminate;
      apply andb_true_iff in H; destruct H as [H1 H2].
    + exists (lit "19"), d1, d2, post. auto.
    + exists (lit "20"), d1, d2, post. auto.
  - intros (c & d1 & d2 & post & -> & [->| ->] & H1 & H2); simpl;
      rewrite H1, H2; split; auto.
    + left. now exists (d1 :: d2 :: post).
    + right. now exists (d1 :: d2 :: post).
Qed.

Lemma year_pattern_search_unfold (s : str) :
  year_pattern_search s
  = match_year_here s || match s with [] => false | _ :: s' => year_pattern_search s' end.
Proof. destruct s; reflexivity. Qed.

Lemma year_pattern_search_iff (s : str) :
  year_pattern_search s = true <-> year_in s.
Proof.
  unfold year_in. induction s as [|a s IH];
    rewrite year_pattern_search_unfold, orb_true_iff, match_year_here_iff.
  - split.
    + intros [(c & d1 & d2 & post & H)|H]; [|discriminate].
      now exists [], c, d1, d2, post.
    + intros (pre & c & d1 & d2 & post & H & Hc & Hd). left.
      destruct pre; [|discriminate]. now exists c, d1, d2, post.
  - rewrite IH. split.
    + intros [(c & d1 & d2 & post & H)|(pre & c & d1 & d2 & post & H & Hc)].
      * now exists [], c, d1, d2, post.
      * exists (a :: pre), c, d1, d2, post. simpl. now rewrite H.
    + intros (pre & c & d1 & d2 & post & H & Hc). destruct pre as [|a' pre].
      * left. now exists c, d1, d2, post.
      * right. simpl in H. injection H as <- H. now exists pre, c, d1, d2, post.
Qed.

(** ** The order on strings and [sorted] *)

Lemma code_inj (x y : ascii) : code x = code y -> x = y.
Proof.
  unfold code. intros H.
  rewrite <- (ascii_N_embedding x), <- (ascii_N_embedding y). now rewrite H.
Qed.

Lemma str_leb_refl (a : str) : str_leb a a = true.
Proof.
  induction a as [|x a IH]; simpl; [reflexivity|].
  now rewrite N.ltb_irrefl, N.eqb_refl.
Qed.

Lemma str_leb_total (a b : str) : str_leb a b = false -> str_leb b a = true.
Proof.
  revert b. induction a as [|x a IH]; intros [|y b]; simpl; try discriminate; auto.
  destruct (N.ltb_spec (code x) (code y)); [discriminate|].
  destruct (N.eqb_spec (code x) (code y)) as [E|E].
  - rewrite E, N.ltb_irrefl, N.eqb_refl. apply IH.
  - intros _. destruct (N.ltb_spec (code y) (code x)); [reflexivity|lia].
Qed.

Lemma str_leb_trans (a b c : str) :
  str_leb a b = true -> str_leb b c = true -> str_leb a c = true.
Proof.
  revert b c. induction a as [|x a IH]; intros [|y b] [|z c]; simpl;
    try discriminate; auto.
  destruct (N.ltb_spec (code x) (code y)), (N.ltb_spec (code y) (code z)),
    (N.ltb_spec (code x) (code z)); auto; try lia;
    destruct (N.eqb_spec (code x) (code y)), (N.eqb_spec (code y) (code z)),
      (N.eqb_spec (code x) (code z)); try discriminate; try lia.
  apply IH.
Qed.

Lemma str_leb_antisym (a b : str) :
  str_leb a b = true -> str_leb b a = true -> a = b.
Proof.
  revert b. induction a as [|x a IH]; intros [|y b]; simpl; try discriminate; auto.
  destruct (N.ltb_spec (code x) (code y)), (N.ltb_spec (code y) (code x));
    try lia;
    destruct (N.eqb_spec (code x) (code y)), (N.eqb_spec (code y) (code x));
    try discriminate; try lia.
  intros H1 H2. f_equal; [now apply code_inj | now apply IH].
Qed.

Lemma insert_sorted_perm (x : str) (l : list str) :
  Permutation (x :: l) (insert_sorted x l).
Proof.
  induction l as [|y l IH]; simpl; [reflexivity|].
  destruct (str_leb x y); [reflexivity|].
  rewrite perm_swap. now constructor.
Qed.

Lemma insert_sorted_sorted (x : str) (l : list str) :
  StronglySorted str_le l -> StronglySorted str_le (insert_sorted x l).
Proof.
  induction l as [|y l IH]; simpl; intros H.
  - repeat constructor.
  - inversion H as [|? ? Hl Hy]; subst.
    destruct (str_leb x y) eqn:E.
    + constructor; [exact H|]. constructor; [exact E|].
      eapply Forall_impl; [|exact Hy]. intros z Hz.
      unfold str_le in *. eapply str_leb_trans; eauto.
    + constructor; [now apply IH|].
      eapply Permutation_Forall; [apply insert_sorted_perm|].
      constructor; [|exact Hy]. now apply str_leb_total.
Qed.

Lemma sorted_perm (l : list str) : Permutation l (sorted l).
Proof.
  induction l as [|x l IH]; simpl; [reflexivity|].
  rewrite <- insert_sorted_perm. now constructor.
Qed.

Lemma sorted_sorted (l : list str) : StronglySorted str_le (sorted l).
Proof.
  induction l as [|x l IH]; simpl; [constructor|].
  now apply insert_sorted_sorted.
Qed.

(** Two sorted lists with the same elements and no repetition are equal:
    the result of [sorted] does not depend on the order in which the set
    hands out its elements. *)
Lemma sorted_unique (l1 l2 : list str) :
  StronglySorted str_le l1 -> StronglySorted str_le l2 ->
  NoDup l1 -> NoDup l2 ->
  (forall x, In x l1 <-> In x l2) -> l1 = l2.
Proof.
  revert l2. induction l1 as [|x l1 IH]; intros [|y l2] S1 S2 N1 N2 H.
  - reflexivity.
  - destruct (proj2 (H y)). now left.
  - destruct (proj1 (H x)). now left.
  - inversion S1 as [|? ? S1' F1]; inversion S2 as [|? ? S2' F2]; subst.
    inversion N1 as [|? ? X1 N1']; inversion N2 as [|? ? X2 N2']; subst.
    rewrite Forall_forall in F1, F2.
    assert (x = y) as ->.
    { destruct (proj1 (H x) (or_introl eq_refl)) as [E|Hx]; [now symmetry|].
      destruct (proj2 (H y) (or_introl eq_refl)) as [E|Hy]; [exact E|].
      apply str_leb_antisym; [now apply F1 | now apply F2]. }
    f_equal. apply IH; auto. intros z. split; intros Hz.
    + destruct (proj1 (H z) (or_intror Hz)) as [E|Hz']; [subst; contradiction|exact Hz'].
    + destruct (proj2 (H z) (or_intror Hz)) as [E|Hz']; [subst; contradiction|exact Hz'].
Qed.

Lemma NoDup_COMMON_SKILLS : NoDup COMMON_SKILLS.
Proof.
  apply (NoDup_count_occ' (list_eq_dec ascii_dec)).
  intros x Hx. unfold COMMON_SKILLS in Hx. simpl in Hx.
  repeat (destruct Hx as [<-|Hx]; [vm_compute; reflexivity|]). destruct Hx.
Qed.

(** A loop of [set.add] over a list without repetition keeps the elements
    that pass the test, in order. *)
Lemma fold_left_set_add (p : str -> bool) (l acc : list str) :
  NoDup (acc ++ l) ->
  fold_left (fun found x => if p x then set_add x found else found) l acc
  = acc ++ filter p l.
Proof.
  revert acc. induction l as [|x l IH]; intros acc H; simpl.
  - now rewrite app_nil_r.
  - assert (set_add x acc = acc ++ [x]) as E.
    { unfold set_add. destruct (existsb (str_eqb x) acc) eqn:Ex; [|reflexivity].
      apply existsb_exists in Ex. destruct Ex as (y & Hy & Hxy).
      apply str_eqb_eq in Hxy. subst y.
      apply NoDup_remove_2 in H. destruct H. apply in_or_app. now left. }
    assert (NoDup ((acc ++ [x]) ++ l)) as H' by now rewrite <- app_assoc.
    destruct (p x).
    + rewrite E, IH by exact H'. now rewrite <- app_assoc.
    + apply IH. apply NoDup_remove_1 in H. exact H.
Qed.

Lemma find_skills_filter (lower_text : str) :
  find_skills lower_text
  = filter (fun skill => re_search_bounded [skill] lower_text) COMMON_SKILLS.
Proof.
  unfold find_skills. rewrite fold_left_set_add; [reflexivity|].
  exact NoDup_COMMON_SKILLS.
Qed.

(** ** Entities *)

Lemma group_startswith_iff (e : entity) (tag : str) :
  tag <> [] -> upper tag = tag ->
  (group_startswith e tag = true <-> tagged tag e).
Proof.
  intros Hne Hup. unfold group_startswith, tagged. split.
  - destruct (ent_get e (lit "entity_group")) as [g|]; [|discriminate].
    rewrite andb_true_iff, startswith_iff. intros [_ [post H]].
    apply map_eq_app in H. destruct H as (p & rest & -> & Hp & _).
    exists (p ++ rest), p, rest. repeat split.
    rewrite <- lower_upper. unfold upper. now rewrite Hp.
  - intros (g & p & rest & -> & -> & H).
    assert (upper p = tag) as Hp.
    { rewrite <- upper_lower, H, upper_lower. exact Hup. }
    rewrite andb_true_iff, startswith_iff. split.
    + destruct p; [|reflexivity]. simpl in Hp. congruence.
    + exists (upper rest). unfold upper in *. now rewrite map_app, Hp.
Qed.

Lemma ent_getitem_Ok (e : entity) (k : str) (v : option str) :
  ent_getitem e k = Ok v -> ent_get e k = v.
Proof.
  unfold ent_getitem, ent_get. destruct (assoc e k); congruence.
Qed.

Lemma org_words_Ok (ents : list entity) (orgs : list (option str)) :
  org_words ents = Ok orgs ->
  orgs = words_of (fun e => group_startswith e (lit "ORG")) ents.
Proof.
  unfold words_of. revert orgs. induction ents as [|e ents IH]; simpl; intros orgs H.
  - congruence.
  - destruct (group_startswith e (lit "ORG")); [|now apply IH].
    destruct (ent_getitem e (lit "word")) as [w|] eqn:Ew; [|discriminate].
    destruct (org_words ents) as [ws|]; [|discriminate].
    simpl in H. injection H as <-. simpl.
    now rewrite (ent_getitem_Ok _ _ Ew), (IH ws eq_refl).
Qed.

(** The comprehension over the ORG entities raises only [KeyError], and
    exactly when one of them has no key "word". *)
Lemma org_words_returns (ents : list entity) :
  org_words_present ents <-> exists orgs, org_words ents = Ok orgs.
Proof.
  unfold org_words_present. induction ents as [|e ents IH]; simpl.
  - split; [now exists []|constructor].
  - rewrite Forall_cons_iff, IH. unfold ent_getitem.
    destruct (group_startswith e (lit "ORG")).
    + destruct (assoc e (lit "word")) as [w|]; simpl.
      * split.
        -- intros [_ [orgs ->]]. simpl. eauto.
        -- intros [orgs H]. split; [discriminate|].
           destruct (org_words ents); [eauto|discriminate].
      * split; [intros [H _]; now destruct H|intros [orgs H]; discriminate].
    + split; [now intros [_ H]|intros H; split; [discriminate|exact H]].
Qed.

Lemma org_words_raises (ents : list entity) (e : exn) :
  org_words ents = Raise e -> e = KeyError (lit "word").
Proof.
  induction ents as [|x ents IH]; simpl; [discriminate|].
  destruct (group_startswith x (lit "ORG")); [|exact IH].
  unfold ent_getitem. destruct (assoc x (lit "word")); simpl; [|congruence].
  destruct (org_words ents); simpl; [discriminate|].
  intros H. injection H as <-. now apply IH.
Qed.

(** ** [split] *)

Lemma split_from_spaces (s : str) :
  forallb is_space s = true -> split_from [] s = [].
Proof.
  induction s as [|c s IH]; simpl; [reflexivity|].
  rewrite andb_true_iff. intros [Hc Hs]. rewrite Hc. now apply IH.
Qed.

Lemma split_from_Forall (P : ascii -> Prop) (s cur : str) :
  Forall P cur -> Forall P s -> Forall (Forall P) (split_from cur s).
Proof.
  revert cur. induction s as [|c s IH]; intros cur Hcur Hs; simpl.
  - destruct cur; constructor; [|constructor]. now apply Forall_rev.
  - inversion Hs; subst. destruct (is_space c).
    + destruct cur.
      * now apply IH.
      * constructor; [now apply Forall_rev|]. now apply IH.
    + apply IH; [now constructor|assumption].
Qed.

Lemma lower_spaces (s : str) :
  forallb is_space s = true -> forallb is_space (lower s) = true.
Proof.
  induction s as [|c s IH]; simpl; [reflexivity|].
  rewrite !andb_true_iff, lower_char_space. intros [Hc Hs]. auto.
Qed.

(** The keywords taken from a lower-cased question are in lower case. *)
Lemma keywords_lower (question w : str) (n : nat) :
  In w (firstn n (split (lower question))) -> lower w = w.
Proof.
  intros Hw.
  assert (Forall (Forall (fun c => lower_char c = c)) (split (lower question))) as H.
  { apply split_from_Forall; [constructor|].
    unfold lower. apply Forall_forall. intros c Hc.
    apply in_map_iff in Hc. destruct Hc as (c' & <- & _). apply lower_char_idem. }
  rewrite Forall_forall in H.
  assert (In w (split (lower question))) as Hin.
  { rewrite <- (firstn_skipn n). apply in_or_app. now left. }
  specialize (H w Hin). clear Hw Hin. unfold lower.
  induction H as [|c w' Hc _ IHw]; simpl; [reflexivity|].
  rewrite Hc. f_equal. apply IHw.
Qed.

(** ** The loops of the field extractor *)

Ltac in_list H := simpl in H; repeat (destruct H as [<-|H]; [reflexivity|]); destruct H.

Lemma DEGREE_KEYWORDS_lower (k : str) : In k DEGREE_KEYWORDS -> lower k = k.
Proof. intros H. unfold DEGREE_KEYWORDS in H. in_list H. Qed.

Lemma ROLE_KEYWORDS_lower (k : str) : In k ROLE_KEYWORDS -> lower k = k.
Proof. intros H. unfold ROLE_KEYWORDS in H. in_list H. Qed.

(** A keyword list in lower case: the loop [any(k in s.lower() for k in kws)]
    finds a keyword occurring in [s] up to letter case. *)
Lemma any_contains_lower (kws : list str) (s : str) :
  (forall k, In k kws -> lower k = k) ->
  (existsb (fun k => contains (lower s) k) kws = true
   <-> exists k, In k kws /\ occurs_ci k s).
Proof.
  intros Hkws. rewrite existsb_exists. split.
  - intros (k & Hk & H). exists k. split; [exact Hk|].
    apply contains_lower_iff; auto.
  - intros (k & Hk & H). exists k. split; [exact Hk|].
    apply contains_lower_iff; auto.
Qed.

Lemma scan_edu_lines_spec (text : str) :
  exists sel,
    (forall line, sel line = true <-> education_line line)
    /\ scan_edu_lines text = map strip (filter sel (splitlines text)).
Proof.
  exists (fun line =>
            (existsb (fun k => contains (lower line) k) DEGREE_KEYWORDS
             || re_search_bounded INSTITUTION_WORDS (lower line))
            && (5 <? length (strip line))).
  split.
  - intros line. unfold education_line.
    rewrite andb_true_iff, orb_true_iff, Nat.ltb_lt,
      (any_contains_lower _ _ DEGREE_KEYWORDS_lower), re_search_bounded_iff.
    tauto.
  - unfold scan_edu_lines. apply fold_left_collect with (acc := @nil str).
    intros acc line.
    destruct (existsb _ DEGREE_KEYWORDS || re_search_bounded _ _); reflexivity.
Qed.

Lemma year_pattern_search_nil : year_pattern_search [] = false.
Proof. reflexivity. Qed.

Lemma scan_experiences_spec (text : str) :
  exists sel,
    (forall line, sel line = true <-> experience_line line)
    /\ scan_experiences text = map strip (filter sel (splitlines text)).
Proof.
  exists (fun line =>
            year_pattern_search (strip line)
            && existsb (fun k => contains (lower (strip line)) k) ROLE_KEYWORDS).
  split.
  - intros line. unfold experience_line.
    now rewrite andb_true_iff, year_pattern_search_iff,
      (any_contains_lower _ _ ROLE_KEYWORDS_lower).
  - unfold scan_experiences. apply fold_left_collect with (acc := @nil str).
    intros acc line. cbv zeta.
    destruct (strip line) as [|c l] eqn:E; [reflexivity|].
    simpl length. reflexivity.
Qed.

Lemma scan_certs_projects_spec (text : str) :
  exists selc selp,
    (forall line, selc line = true <-> certification_line line)
    /\ (forall line, selp line = true <-> project_line line)
    /\ scan_certs_projects text
       = (map strip (filter selc (splitlines text)),
          map strip (filter selp (splitlines text))).
Proof.
  exists (fun line =>
            contains (lower line) (lit "certif") || contains (lower line) (lit "course")
            || contains (lower line) (lit "certificate")),
         (fun line =>
            contains (lower line) (lit "project")
            || contains (lower line) (lit "github.com")).
  repeat split.
  - rewrite !orb_true_iff, !contains_lower_iff by reflexivity.
    unfold certification_line. tauto.
  - unfold certification_line.
    rewrite !orb_true_iff, !contains_lower_iff by reflexivity. tauto.
  - rewrite !orb_true_iff, !contains_lower_iff by reflexivity. exact (fun H => H).
  - unfold project_line.
    rewrite !orb_true_iff, !contains_lower_iff by reflexivity. exact (fun H => H).
  - unfold scan_certs_projects.
    enough (forall lines certs projects,
      fold_left
        (fun '(certs, projects) line =>
           let low := lower line in
           let certs :=
             if contains low (lit "certif") || contains low (lit "course")
                || contains low (lit "certificate")
             then certs ++ [strip line] else certs in
           let projects :=
             if contains low (lit "project") || contains low (lit "github.com")
             then projects ++ [strip line] else projects in
           (certs, projects))
        lines (certs, projects)
      = (certs ++ map strip (filter (fun line =>
            contains (lower line) (lit "certif") || contains (lower line) (lit "course")
            || contains (lower line) (lit "certificate")) lines),
         projects ++ map strip (filter (fun line =>
            contains (lower line) (lit "project")
            || contains (lower line) (lit "github.com")) lines))) as H
      by apply (H (splitlines text) [] []).
    induction lines as [|line lines IH]; intros certs projects; simpl.
    + now rewrite !app_nil_r.
    + rewrite IH. f_equal.
      * destruct (contains _ (lit "certif") || _ || _); simpl;
          [now rewrite <- app_assoc|reflexivity].
      * destruct (contains _ (lit "project") || _); simpl;
          [now rewrite <- app_assoc|reflexivity].
Qed.

(** ** [build_structured_fields] as a whole *)

(** When the extractor returns, the comprehension over the ORG entities has
    returned, and the record is the dictionary literal over the results of
    the loops. *)
Lemma build_structured_fields_Ok (text : str) (ner : option (list entity)) (r : dict) :
  build_structured_fields text ner = Ok r ->
  exists orgs,
    org_words (or_empty ner) = Ok orgs
    /\ r = structured
             (detect_name (or_empty ner))
             (match scan_edu_lines text, orgs with
              | _ :: _, _ => [(lit "entries", VList (map VStr (scan_edu_lines text)))]
              | [], _ :: _ => [(lit "entries", VList (map of_opt (firstn 3 orgs)))]
              | [], [] => []
              end)
             (scan_experiences text
              ++ map (fun o => lit "Worked at " ++ format_opt o) (firstn 5 orgs))
             (find_skills (lower text))
             (find_hobbies (lower text))
             (fst (scan_certs_projects text))
             (snd (scan_certs_projects text))
             (find_intro (splitlines text)).
Proof.
  unfold build_structured_fields. intros H.
  destruct (org_words (or_empty ner)) as [orgs|e] eqn:E.
  - exists orgs. split; [reflexivity|].
    destruct (scan_certs_projects text) as [certs projects].
    destruct (scan_edu_lines text) as [|l0 ls]; destruct orgs as [|o os];
      cbn [bind negb is_nil] in H; rewrite fold_left_snoc in H;
      injection H as <-; reflexivity.
  - destruct (negb (is_nil (scan_edu_lines text))); simpl in H; discriminate.
Qed.

(** The extractor returns exactly when every ORG entity has the key "word",
    and raises [KeyError] otherwise. *)
Lemma build_structured_fields_returns (text : str) (ner : option (list entity)) :
  org_words_present (or_empty ner) <->
  exists r, build_structured_fields text ner = Ok r.
Proof.
  rewrite org_words_returns. split.
  - intros [orgs E]. unfold build_structured_fields. rewrite E.
    destruct (scan_certs_projects text) as [certs projects].
    destruct (negb (is_nil (scan_edu_lines text))); simpl; eauto.
  - intros [r H]. apply build_structured_fields_Ok in H.
    destruct H as (orgs & E & _). eauto.
Qed.

Lemma build_structured_fields_raises (text : str) (ner : option (list entity)) (e : exn) :
  build_structured_fields text ner = Raise e -> e = KeyError (lit "word").
Proof.
  unfold build_structured_fields. intros H.
  destruct (org_words (or_empty ner)) as [orgs|e'] eqn:E.
  - destruct (scan_certs_projects text) as [certs projects].
    destruct (negb (is_nil (scan_edu_lines text))); simpl in H; discriminate.
  - apply org_words_raises in E. subst e'.
    destruct (negb (is_nil (scan_edu_lines text))); simpl in H; congruence.
Qed.

(** ** The field extractor: properties *)


(** C3.  Whenever the extractor returns a record, the record has exactly the
    eight keys of the schema, each with a value of its type (a string, a
    list or a dictionary, never [None]); on the empty text without entities
    it is the record of the defaults. *)
Theorem C3_record_has_every_field (text : str) (ner : option (list entity)) (r : dict) :
  build_structured_fields text ner = Ok r ->
  map fst r = map fst SCHEMA
  /\ Forall (fun '(k, ty) => exists v, assoc r k = Some v /\ ty v = true) SCHEMA
  /\ (text = [] -> or_empty ner = [] -> r = EMPTY_RECORD).
Proof.
  intros H. apply build_structured_fields_Ok in H.
  destruct H as (orgs & E & ->). repeat split.
  - repeat constructor; eexists; split; reflexivity.
  - intros -> Hner. rewrite Hner in *. simpl in E. injection E as <-.
    reflexivity.
Qed.

Lemma C3_record_has_every_field_witness :
  build_structured_fields [] None = Ok EMPTY_RECORD
  /\ map fst EMPTY_RECORD = map fst SCHEMA
  /\ Forall (fun '(k, ty) => exists v, assoc EMPTY_RECORD k = Some v /\ ty v = true)
       SCHEMA
  /\ (@nil ascii = [] -> or_empty None = [] -> EMPTY_RECORD = EMPTY_RECORD).
Proof.
  split; [reflexivity|].
  apply (@C3_record_has_every_field [] None EMPTY_RECORD). reflexivity.
Defined.

(** C4.  The skills of a returned record are the tokens of [COMMON_SKILLS]
    that occur in the lower-cased text between word boundaries, sorted in
    ascending order without repetition; when "python" occurs so, in whatever
    letter case and however often in the text, it is listed exactly once. *)
Theorem C4_skills_sorted_set (text : str) (ner : option (list entity)) (r : dict) :
  build_structured_fields text ner = Ok r ->
  exists skills,
    assoc r (lit "skills") = Some (VList (map VStr skills))
    /\ (forall tok,
          In tok skills <-> In tok COMMON_SKILLS /\ whole_word_in tok (lower text))
    /\ StronglySorted str_le skills
    /\ NoDup skills
    /\ (whole_word_in (lit "python") (lower text) ->
        count_occ (list_eq_dec ascii_dec) skills (lit "python") = 1).
Proof.
  intros H. apply build_structured_fields_Ok in H.
  destruct H as (orgs & _ & ->).
  exists (sorted (find_skills (lower text))).
  assert (forall tok,
            In tok (sorted (find_skills (lower text)))
            <-> In tok COMMON_SKILLS /\ whole_word_in tok (lower text)) as Hin.
  { intros tok. rewrite <- re_search_word_iff.
    rewrite <- (filter_In (fun skill => re_search_bounded [skill] (lower text))
                  tok COMMON_SKILLS), <- find_skills_filter.
    split; apply Permutation_in; [symmetry|]; apply sorted_perm. }
  assert (NoDup (sorted (find_skills (lower text)))) as Hnd.
  { eapply Permutation_NoDup; [apply sorted_perm|].
    rewrite find_skills_filter. apply NoDup_filter, NoDup_COMMON_SKILLS. }
  split; [reflexivity|]. split; [exact Hin|].
  split; [apply sorted_sorted|]. split; [exact Hnd|].
  intros Hpy.
  apply (proj1 (NoDup_count_occ' (list_eq_dec ascii_dec) _) Hnd).
  apply Hin. split; [|exact Hpy].
  unfold COMMON_SKILLS. simpl. now left.
Qed.

(** C5.  The education of a returned record: its entries are the stripped
    education lines of the text in source order; without any such line they
    are the words of the first three entities tagged ORG; without those
    either, education is the empty dictionary. *)
Theorem C5_education_entries (text : str) (ner : option (list entity)) (r : dict) :
  build_structured_fields text ner = Ok r ->
  exists sel org,
    (forall line, sel line = true <-> education_line line)
    /\ (forall e, org e = true <-> tagged (lit "ORG") e)
    /\ assoc r (lit "education")
       = Some (VDict
           match map strip (filter sel (splitlines text)),
                 words_of org (or_empty ner) with
           | (_ :: _) as entries, _ => [(lit "entries", VList (map VStr entries))]
           | [], (_ :: _) as orgs =>
               [(lit "entries", VList (map of_opt (firstn 3 orgs)))]
           | [], [] => []
           end).
Proof.
  intros H. apply build_structured_fields_Ok in H.
  destruct H as (orgs & E & ->).
  destruct (scan_edu_lines_spec text) as (sel & Hsel & Hscan).
  exists sel, (fun e => group_startswith e (lit "ORG")).
  split; [exact Hsel|].
  split; [intros e; apply group_startswith_iff; [discriminate|reflexivity]|].
  apply org_words_Ok in E. rewrite <- E, <- Hscan.
  destruct (scan_edu_lines text), orgs; reflexivity.
Qed.

(** C6.  The experience of a returned record: its summary lines are the
    stripped experience lines of the text in source order, followed by one
    line "Worked at <word>" for each of the first five entities tagged ORG,
    whether or not the text gave any line; when there is no line at all,
    experience is the empty dictionary. *)
Theorem C6_experience_summary (text : str) (ner : option (list entity)) (r : dict) :
  build_structured_fields text ner = Ok r ->
  exists sel org,
    (forall line, sel line = true <-> experience_line line)
    /\ (forall e, org e = true <-> tagged (lit "ORG") e)
    /\ assoc r (lit "experience")
       = Some (VDict
           match map strip (filter sel (splitlines text))
                 ++ map (fun o => lit "Worked at " ++ format_opt o)
                      (firstn 5 (words_of org (or_empty ner))) with
           | [] => []
           | (_ :: _) as summary => [(lit "summary_lines", VList (map VStr summary))]
           end).
Proof.
  intros H. apply build_structured_fields_Ok in H.
  destruct H as (orgs & E & ->).
  destruct (scan_experiences_spec text) as (sel & Hsel & Hscan).
  exists sel, (fun e => group_startswith e (lit "ORG")).
  split; [exact Hsel|].
  split; [intros e; apply group_startswith_iff; [discriminate|reflexivity]|].
  apply org_words_Ok in E. rewrite <- E, <- Hscan.
  unfold structured.
  destruct (scan_experiences text ++ _); reflexivity.
Qed.

(** C7.  Certifications and projects of a returned record: each is the list
    of the stripped lines of the text that pass its test, in source order
    and with repetitions kept; a line passing both tests is in both. *)
Theorem C7_certifications_and_projects (text : str) (ner : option (list entity)) (r : dict) :
  build_structured_fields text ner = Ok r ->
  exists selc selp,
    (forall line, selc line = true <-> certification_line line)
    /\ (forall line, selp line = true <-> project_line line)
    /\ assoc r (lit "certifications")
       = Some (VList (map VStr (map strip (filter selc (splitlines text)))))
    /\ assoc r (lit "projects")
       = Some (VList (map VStr (map strip (filter selp (splitlines text)))))
    /\ (forall line,
          In line (splitlines text) ->
          certification_line line -> project_line line ->
          In (strip line) (map strip (filter selc (splitlines text)))
          /\ In (strip line) (map strip (filter selp (splitlines text)))).
Proof.
  intros H. apply build_structured_fields_Ok in H.
  destruct H as (orgs & _ & ->).
  destruct (scan_certs_projects_spec text) as (selc & selp & Hc & Hp & Hscan).
  exists selc, selp. rewrite Hscan.
  split; [exact Hc|]. split; [exact Hp|].
  split; [reflexivity|]. split; [reflexivity|].
  intros line Hin Hcl Hpl.
  split; apply in_map, filter_In; split; auto; [now apply Hc|now apply Hp].
Qed.

(** ** The question answerer: properties *)

Lemma model_available_false (m : models) :
  model_available m = false ->
  (if models_loaded m then qa_pipeline m else None) = None.
Proof.
  unfold model_available.
  destruct (models_loaded m), (qa_pipeline m); simpl; congruence.
Qed.

(** Without a model the answerer is the fallback: the first candidate of
    the loop, or the fixed reply. *)
Lemma call_local_qa_fallback (m : models) (question context : str) (top_k : nat) :
  model_available m = false ->
  call_local_qa m question context top_k
  = match scan_candidates (lower question) context with
    | c :: _ => VDict [(lit "answer", VStr c)]
    | [] => VDict [(lit "answer", VStr NO_ANSWER)]
    end.
Proof.
  intros H. unfold call_local_qa. now rewrite (model_available_false _ H).
Qed.

Lemma call_local_qa_model
    (m : models) (qa : pipeline) (question context : str) (top_k : nat) :
  models_loaded m = true -> qa_pipeline m = Some qa ->
  call_local_qa m question context top_k
  = match qa question (model_context context) top_k with
    | inl res => res
    | inr e => VDict [(lit "error", VStr e)]
    end.
Proof.
  intros H1 H2. unfold call_local_qa. now rewrite H1, H2.
Qed.

Lemma scan_candidates_spec (question context : str) :
  exists sel,
    (forall line,
       sel line = true <-> answer_line (firstn 3 (split (lower question))) line)
    /\ scan_candidates (lower question) context
       = map strip (filter sel (splitlines context)).
Proof.
  exists (fun line =>
            negb (length (strip line) <? 3)
            && existsb (fun word => contains (lower line) word)
                 (firstn 3 (split (lower question)))).
  split.
  - intros line. unfold answer_line.
    rewrite andb_true_iff, negb_true_iff, Nat.ltb_ge, any_contains_lower.
    + reflexivity.
    + intros k. apply keywords_lower.
  - unfold scan_candidates. apply fold_left_collect with (acc := @nil str).
    intros acc line. destruct (length (strip line) <? 3); reflexivity.
Qed.

(** C8.  Without a model, the answer is the stripped form of the first line
    of the context, in order, that is at least three characters long once
    stripped and holds, up to letter case, one of the first three words of
    the lower-cased question; when no line does, it is the fixed reply. *)
Theorem C8_fallback_first_matching_line
    (m : models) (question context : str) (top_k : nat) :
  model_available m = false ->
  let kws := firstn 3 (split (lower question)) in
  (exists pre line post,
      splitlines context = pre ++ line :: post
      /\ answer_line kws line
      /\ (forall l, In l pre -> ~ answer_line kws l)
      /\ call_local_qa m question context top_k
         = VDict [(lit "answer", VStr (strip line))])
  \/ ((forall l, In l (splitlines context) -> ~ answer_line kws l)
      /\ call_local_qa m question context top_k
         = VDict [(lit "answer", VStr NO_ANSWER)]).
Proof.
  intros Hm kws. rewrite (call_local_qa_fallback _ _ _ _ Hm).
  destruct (scan_candidates_spec question context) as (sel & Hsel & ->).
  fold kws in Hsel.
  pose proof (filter_first sel (splitlines context)) as Hfirst.
  destruct (filter sel (splitlines context)) as [|line rest]; simpl.
  - right. split; [|reflexivity].
    intros l Hl Hans. apply Hsel in Hans. rewrite (Hfirst l Hl) in Hans. discriminate.
  - left. destruct Hfirst as (pre & post & Hsplit & Hline & Hpre).
    exists pre, line, post.
    split; [exact Hsplit|]. split; [now apply Hsel|]. split; [|reflexivity].
    intros l Hl Hans. apply Hsel in Hans. rewrite (Hpre l Hl) in Hans. discriminate.
Qed.

(** C9.  With a model loaded, the pipeline is called on the question and on
    [model_context context]: for a context longer than 20000 characters
    that is a suffix of the context of length 20000, the characters before
    it being dropped; a context of at most 20000 characters is passed as it
    is. *)
Theorem C9_model_context_trailing_slice
    (m : models) (qa : pipeline) (question context : str) (top_k : nat) :
  models_loaded m = true -> qa_pipeline m = Some qa ->
  call_local_qa m question context top_k
  = match qa question (model_context context) top_k with
    | inl res => res
    | inr e => VDict [(lit "error", VStr e)]
    end
  /\ ((max_context < len context)%Z ->
      len (model_context context) = max_context
      /\ exists dropped, context = dropped ++ model_context context)
  /\ ((len context <= max_context)%Z -> model_context context = context).
Proof.
  intros H1 H2. split; [now apply call_local_qa_model|].
  unfold model_context. split; intros H.
  - destruct (Z.leb_spec (len context) max_context) as [H'|_]; [lia|].
    unfold slice_from. change (- max_context <? 0)%Z with true. cbv iota.
    split.
    + unfold len in *. rewrite length_skipn. unfold max_context in *. lia.
    + eexists. symmetry. apply firstn_skipn.
  - destruct (Z.leb_spec (len context) max_context) as [_|H']; [reflexivity|lia].
Qed.

(** C10.  Without a model, a question made of white space only (or empty)
    gives no keyword, no line of any context is an answer line, and the
    answer is the fixed reply. *)
Theorem C10_blank_question_no_answer
    (m : models) (question context : str) (top_k : nat) :
  model_available m = false ->
  forallb is_space question = true ->
  split (lower question) = []
  /\ (forall line, ~ answer_line (firstn 3 (split (lower question))) line)
  /\ call_local_qa m question context top_k = VDict [(lit "answer", VStr NO_ANSWER)].
Proof.
  intros Hm Hq.
  assert (split (lower question) = []) as Hsplit.
  { apply split_from_spaces. now apply lower_spaces. }
  assert (forall line, ~ answer_line (firstn 3 (split (lower question))) line) as Hno.
  { intros line (_ & w & Hw & _). rewrite Hsplit in Hw. destruct Hw. }
  split; [exact Hsplit|]. split; [exact Hno|].
  rewrite (call_local_qa_fallback _ _ _ _ Hm).
  destruct (scan_candidates_spec question context) as (sel & Hsel & ->).
  rewrite filter_all_false; [reflexivity|].
  intros line. destruct (sel line) eqn:E; [|reflexivity].
  apply Hsel in E. now apply Hno in E.
Qed.

(** C1 (as amended).  With a model loaded whose call fails with the text
    [e], the answerer returns the payload [{"error": e}]: it raises nothing,
    and the payload is not the reply of the fallback.  The handler then, for
    a non-empty [e], raises HTTP 500 with the detail "QA failed: e". *)
Theorem C1_model_failure_error_payload
    (py_repr : pyval -> str) (m : models) (qa : pipeline)
    (find_one : str -> option dict) (candidate_id : str) (question : entity)
    (q : str) (d : dict) (e : str) :
  models_loaded m = true -> qa_pipeline m = Some qa ->
  ent_get question (lit "question") = Some q -> q <> [] ->
  find_one candidate_id = Some d -> d <> [] ->
  qa q (model_context (build_context py_repr d)) 1 = inr e ->
  call_local_qa m q (build_context py_repr d) 1 = VDict [(lit "error", VStr e)]
  /\ call_local_qa m q (build_context py_repr d) 1
     <> call_local_qa NO_MODELS q (build_context py_repr d) 1
  /\ (e <> [] ->
      ask_candidate py_repr m find_one candidate_id question
      = Raise (HTTPException 500 (lit "QA failed: " ++ e))).
Proof.
  intros Hm Hqa Hq Hq' Hd Hd' He.
  assert (call_local_qa m q (build_context py_repr d) 1
          = VDict [(lit "error", VStr e)]) as Hcall.
  { rewrite (call_local_qa_model _ _ _ _ Hm Hqa). now rewrite He. }
  split; [exact Hcall|]. split.
  - rewrite Hcall, call_local_qa_fallback by reflexivity.
    destruct (scan_candidates _ _); discriminate.
  - intros Hne. unfold ask_candidate. rewrite Hq, Hd.
    destruct q as [|c q]; [contradiction|].
    destruct d as [|kv d]; [contradiction|].
    rewrite Hcall. destruct e as [|c' e]; [contradiction|]. reflexivity.
Qed.

Lemma C1_model_failure_error_payload_witness :
  call_local_qa MODELS_FAILING (lit "What university did she attend")
    (build_context SAMPLE_REPR SAMPLE_DOC) 1
  = VDict [(lit "error", VStr (lit "boom"))]
  /\ call_local_qa MODELS_FAILING (lit "What university did she attend")
       (build_context SAMPLE_REPR SAMPLE_DOC) 1
     <> call_local_qa NO_MODELS (lit "What university did she attend")
          (build_context SAMPLE_REPR SAMPLE_DOC) 1
  /\ (lit "boom" <> [] ->
      ask_candidate SAMPLE_REPR MODELS_FAILING SAMPLE_FIND_ONE (lit "c1") SAMPLE_BODY
      = Raise (HTTPException 500 (lit "QA failed: " ++ lit "boom"))).
Proof.
  apply (@C1_model_failure_error_payload SAMPLE_REPR MODELS_FAILING FAILING_QA
           SAMPLE_FIND_ONE (lit "c1") SAMPLE_BODY
           (lit "What university did she attend") SAMPLE_DOC (lit "boom"));
    try reflexivity; discriminate.
Defined.

(** C1 (as stated) fails: with a model loaded whose call raises "boom", the
    answerer's payload has no answer, and the handler returns no payload at
    all: it raises HTTP 500. *)
Lemma C1_model_failure_counterexample :
  call_local_qa MODELS_FAILING (lit "What university did she attend") SAMPLE_CONTEXT 1
  <> VDict [(lit "answer", VStr (lit "boom"))]
  /\ ask_candidate SAMPLE_REPR MODELS_FAILING SAMPLE_FIND_ONE (lit "c1") SAMPLE_BODY
     = Raise (HTTPException 500 (lit "QA failed: boom"))
  /\ forall payload,
       ask_candidate SAMPLE_REPR MODELS_FAILING SAMPLE_FIND_ONE (lit "c1") SAMPLE_BODY
       <> Ok payload.
Proof.
  split; [discriminate|]. split; [reflexivity|]. discriminate.
Qed.

(** ** The properties on the sample inputs *)

Lemma C4_skills_sorted_set_witness :
  exists r,
    build_structured_fields SAMPLE_RESUME (Some SAMPLE_ENTITIES) = Ok r
    /\ exists skills,
         assoc r (lit "skills") = Some (VList (map VStr skills))
         /\ (forall tok,
               In tok skills
               <-> In tok COMMON_SKILLS /\ whole_word_in tok (lower SAMPLE_RESUME))
         /\ StronglySorted str_le skills
         /\ NoDup skills
         /\ (whole_word_in (lit "python") (lower SAMPLE_RESUME) ->
             count_occ (list_eq_dec ascii_dec) skills (lit "python") = 1).
Proof.
  eexists. split; [reflexivity|].
  apply (@C4_skills_sorted_set SAMPLE_RESUME (Some SAMPLE_ENTITIES)). reflexivity.
Defined.

Lemma C5_education_entries_witness :
  exists r,
    build_structured_fields SAMPLE_RESUME (Some SAMPLE_ENTITIES) = Ok r
    /\ exists sel org,
         (forall line, sel line = true <-> education_line line)
         /\ (forall e, org e = true <-> tagged (lit "ORG") e)
         /\ assoc r (lit "education")
            = Some (VDict
                match map strip (filter sel (splitlines SAMPLE_RESUME)),
                      words_of org (or_empty (Some SAMPLE_ENTITIES)) with
                | (_ :: _) as entries, _ => [(lit "entries", VList (map VStr entries))]
                | [], (_ :: _) as orgs =>
                    [(lit "entries", VList (map of_opt (firstn 3 orgs)))]
                | [], [] => []
                end).
Proof.
  eexists. split; [reflexivity|].
  apply (@C5_education_entries SAMPLE_RESUME (Some SAMPLE_ENTITIES)). reflexivity.
Defined.

Lemma C6_experience_summary_witness :
  exists r,
    build_structured_fields SAMPLE_RESUME (Some SAMPLE_ENTITIES) = Ok r
    /\ exists sel org,
         (forall line, sel line = true <-> experience_line line)
         /\ (forall e, org e = true <-> tagged (lit "ORG") e)
         /\ assoc r (lit "experience")
            = Some (VDict
                match map strip (filter sel (splitlines SAMPLE_RESUME))
                      ++ map (fun o => lit "Worked at " ++ format_opt o)
                           (firstn 5 (words_of org (or_empty (Some SAMPLE_ENTITIES)))) with
                | [] => []
                | (_ :: _) as summary =>
                    [(lit "summary_lines", VList (map VStr summary))]
                end).
Proof.
  eexists. split; [reflexivity|].
  apply (@C6_experience_summary SAMPLE_RESUME (Some SAMPLE_ENTITIES)). reflexivity.
Defined.

Lemma C7_certifications_and_projects_witness :
  exists r,
    build_structured_fields SAMPLE_RESUME (Some SAMPLE_ENTITIES) = Ok r
    /\ exists selc selp,
         (forall line, selc line = true <-> certification_line line)
         /\ (forall line, selp line = true <-> project_line line)
         /\ assoc r (lit "certifications")
            = Some (VList (map VStr (map strip (filter selc (splitlines SAMPLE_RESUME)))))
         /\ assoc r (lit "projects")
            = Some (VList (map VStr (map strip (filter selp (splitlines SAMPLE_RESUME)))))
         /\ (forall line,
               In line (splitlines SAMPLE_RESUME) ->
               certification_line line -> project_line line ->
               In (strip line) (map strip (filter selc (splitlines SAMPLE_RESUME)))
               /\ In (strip line) (map strip (filter selp (splitlines SAMPLE_RESUME)))).
Proof.
  eexists. split; [reflexivity|].
  apply (@C7_certifications_and_projects SAMPLE_RESUME (Some SAMPLE_ENTITIES)).
  reflexivity.
Defined.

Lemma C8_fallback_first_matching_line_witness :
  model_available NO_MODELS = false
  /\ ((exists pre line post,
          splitlines SAMPLE_CONTEXT = pre ++ line :: post
          /\ answer_line
               (firstn 3 (split (lower (lit "What university did she attend")))) line
          /\ (forall l, In l pre ->
                ~ answer_line
                    (firstn 3 (split (lower (lit "What university did she attend")))) l)
          /\ call_local_qa NO_MODELS (lit "What university did she attend")
               SAMPLE_CONTEXT 1
             = VDict [(lit "answer", VStr (strip line))])
      \/ ((forall l, In l (splitlines SAMPLE_CONTEXT) ->
             ~ answer_line
                 (firstn 3 (split (lower (lit "What university did she attend")))) l)
          /\ call_local_qa NO_MODELS (lit "What university did she attend")
               SAMPLE_CONTEXT 1
             = VDict [(lit "answer", VStr NO_ANSWER)])).
Proof.
  split; [reflexivity|].
  apply (@C8_fallback_first_matching_line NO_MODELS
           (lit "What university did she attend") SAMPLE_CONTEXT 1).
  reflexivity.
Defined.

Lemma C9_model_context_trailing_slice_witness :
  models_loaded MODELS_ECHO = true
  /\ qa_pipeline MODELS_ECHO = Some ECHO_QA
  /\ call_local_qa MODELS_ECHO (lit "When?") SAMPLE_CONTEXT 1
     = match ECHO_QA (lit "When?") (model_context SAMPLE_CONTEXT) 1 with
       | inl res => res
       | inr e => VDict [(lit "error", VStr e)]
       end
  /\ ((max_context < len SAMPLE_CONTEXT)%Z ->
      len (model_context SAMPLE_CONTEXT) = max_context
      /\ exists dropped, SAMPLE_CONTEXT = dropped ++ model_context SAMPLE_CONTEXT)
  /\ ((len SAMPLE_CONTEXT <= max_context)%Z -> model_context SAMPLE_CONTEXT = SAMPLE_CONTEXT).
Proof.
  split; [reflexivity|]. split; [reflexivity|].
  apply (@C9_model_context_trailing_slice MODELS_ECHO ECHO_QA (lit "When?")
           SAMPLE_CONTEXT 1); reflexivity.
Defined.

Lemma C10_blank_question_no_answer_witness :
  model_available NO_MODELS = false
  /\ forallb is_space (lit "   ") = true
  /\ split (lower (lit "   ")) = []
  /\ (forall line, ~ answer_line (firstn 3 (split (lower (lit "   ")))) line)
  /\ call_local_qa NO_MODELS (lit "   ") SAMPLE_CONTEXT 1
     = VDict [(lit "answer", VStr NO_ANSWER)].
Proof.
  split; [reflexivity|]. split; [reflexivity|].
  apply (@C10_blank_question_no_answer NO_MODELS (lit "   ") SAMPLE_CONTEXT 1);
    reflexivity.
Defined.

(** ** Worked examples *)

Lemma assoc_skills_of (text : str) (r : dict) :
  build_structured_fields text None = Ok r ->
  assoc r (lit "skills") = Some (VList (map VStr (sorted (find_skills (lower text))))).
Proof.
  intros H. apply build_structured_fields_Ok in H.
  destruct H as (orgs & _ & ->). reflexivity.
Qed.

(** The result of [sorted] on a set does not depend on the order in which
    the set is enumerated. *)
Lemma sorted_order_independent (l1 l2 : list str) :
  NoDup l1 -> Permutation l1 l2 -> sorted l1 = sorted l2.
Proof.
  intros Hnd Hperm. apply sorted_unique.
  - apply sorted_sorted.
  - apply sorted_sorted.
  - eapply Permutation_NoDup; [apply sorted_perm|exact Hnd].
  - eapply Permutation_NoDup; [apply sorted_perm|].
    eapply Permutation_NoDup; [exact Hperm|exact Hnd].
  - intros x. split; intros Hx.
    + eapply Permutation_in; [apply sorted_perm|].
      eapply Permutation_in; [exact Hperm|].
      eapply Permutation_in; [symmetry; apply sorted_perm|exact Hx].
    + eapply Permutation_in; [apply sorted_perm|].
      eapply Permutation_in; [symmetry; exact Hperm|].
      eapply Permutation_in; [symmetry; apply sorted_perm|exact Hx].
Qed.

Example skills_python_once :
  sorted (find_skills (lower (lit "Python and python"))) = [lit "python"].
Proof. reflexivity. Qed.

Example skills_none :
  sorted (find_skills (lower (lit "Plain words only."))) = [].
Proof. reflexivity. Qed.

(** "c++" is found only with a word character right after it: the second
    [\b] of the pattern stands between "+" and what follows. *)
Example skills_cpp_boundary :
  sorted (find_skills (lower (lit "I know C++ and Java"))) = [lit "c"; lit "java"]
  /\ sorted (find_skills (lower (lit "I know C++11"))) = [lit "c"; lit "c++"].
Proof. split; reflexivity. Qed.

Example name_first_person :
  detect_name
    [ [(lit "word", Some (lit "Jane Doe")); (lit "entity_group", Some (lit "PER"))];
      [(lit "word", Some (lit "Acme Corp")); (lit "entity_group", Some (lit "ORG"))] ]
  = Some (lit "Jane Doe").
Proof. reflexivity. Qed.

Example education_first_three_orgs :
  exists r,
    build_structured_fields (lit "Hello")
      (Some (map (fun w => [(lit "word", Some (lit w)); (lit "entity_group", Some (lit "ORG"))])
               ["Acme"; "Beta"; "Gamma"; "Delta"]%string))
    = Ok r
    /\ assoc r (lit "education")
       = Some (VDict [(lit "entries",
                       VList [VStr (lit "Acme"); VStr (lit "Beta"); VStr (lit "Gamma")])]).
Proof. eexists. split; reflexivity. Qed.

Example certificate_project_line_in_both :
  scan_certs_projects (lit "Completed a certificate project on github.com")
  = ([lit "Completed a certificate project on github.com"],
     [lit "Completed a certificate project on github.com"]).
Proof. reflexivity. Qed.

Example fallback_no_keyword :
  call_local_qa NO_MODELS (lit "When did she graduate?")
    (lit "SKILLS:" ++ NL ++ lit "python" ++ NL ++ lit "sql" ++ NL) 1
  = VDict [(lit "answer", VStr (lit "No clear answer found in stored data."))].
Proof. reflexivity. Qed.

Example fallback_university :
  call_local_qa NO_MODELS (lit "What university did she attend") SAMPLE_CONTEXT 1
  = VDict [(lit "answer", VStr (lit "Graduated from State University in 2015"))].
Proof. reflexivity. Qed.

Lemma model_context_app (a b : str) :
  len b = max_context -> a <> [] -> model_context (a ++ b) = b.
Proof.
  intros Hb Ha. unfold model_context, slice_from.
  change (- max_context <? 0)%Z with true. cbv iota.
  assert (0 < length a) as Hlen by (destruct a; [contradiction|simpl; lia]).
  unfold len in *. rewrite length_app.
  destruct (Z.leb_spec (Z.of_nat (length a + length b)) max_context) as [H|H];
    [unfold max_context in *; lia|].
  replace (Z.to_nat _) with (length a) by (unfold max_context in *; lia).
  now rewrite skipn_app, skipn_all, Nat.sub_diag.
Qed.

(** A context of 25000 characters is cut down to its last 20000. *)
Example model_context_25000 :
  model_context (repeat "a"%char (Z.to_nat 5000) ++ repeat "b"%char (Z.to_nat 20000))
  = repeat "b"%char (Z.to_nat 20000).
Proof.
  apply model_context_app.
  - unfold len. rewrite repeat_length. reflexivity.
  - intros H. apply (f_equal (@length ascii)) in H.
    rewrite repeat_length in H. simpl length in H. lia.
Qed.

(** A failure with an empty message is not re-raised: the handler answers
    with the printed form of the error payload. *)
Example ask_candidate_empty_error :
  ask_candidate SAMPLE_REPR
    {| models_loaded := true; qa_pipeline := Some (fun _ _ _ => inr []) |}
    SAMPLE_FIND_ONE (lit "c1") SAMPLE_BODY
  = Ok [ (lit "candidate_id", VStr (lit "c1"));
         (lit "question", VStr (lit "What university did she attend"));
         (lit "answer", VStr (SAMPLE_REPR (VDict [(lit "error", VStr [])]))) ].
Proof. reflexivity. Qed.

(** ** Entity recognition and the extractor together *)

Lemma call_local_ner_map (g : globals) (text : str) :
  exists ents, call_local_ner g text = map normalize_entity ents.
Proof.
  unfold call_local_ner.
  destruct (if models_loaded (qa_models g) then ner_pipeline g else None) as [ner|];
    [|now exists []].
  destruct (ner (slice_to max_chunk text)) as [ents|e]; [|now exists []].
  exists ents. now rewrite fold_left_snoc.
Qed.

Lemma assoc_normalize_word (e : entity) :
  assoc (normalize_entity e) (lit "word")
  = Some (match assoc e (lit "word") with
          | Some _ => ent_get e (lit "word")
          | None => ent_get e (lit "entity")
          end).
Proof. reflexivity. Qed.

Lemma assoc_normalize_group (e : entity) :
  assoc (normalize_entity e) (lit "entity_group")
  = Some (if opt_truthy (ent_get e (lit "entity_group"))
          then ent_get e (lit "entity_group")
          else ent_get e (lit "entity")).
Proof. reflexivity. Qed.

Lemma normalized_org_words_present (ents : list entity) :
  org_words_present (map normalize_entity ents).
Proof.
  unfold org_words_present. apply Forall_forall. intros e He _.
  apply in_map_iff in He. destruct He as (e0 & <- & _).
  rewrite assoc_normalize_word. discriminate.
Qed.

(** The extractor reads the entities only through the name loop and the
    ORG comprehension. *)
Lemma build_structured_fields_ext (text : str) (n1 n2 : option (list entity)) :
  detect_name (or_empty n1) = detect_name (or_empty n2) ->
  org_words (or_empty n1) = org_words (or_empty n2) ->
  build_structured_fields text n1 = build_structured_fields text n2.
Proof.
  intros Hn Ho. unfold build_structured_fields. now rewrite Hn, Ho.
Qed.

Lemma org_words_raises_iff (ents : list entity) :
  (exists e, org_words ents = Raise e) <->
  Exists (fun x => group_startswith x (lit "ORG") = true
                   /\ assoc x (lit "word") = None) ents.
Proof.
  induction ents as [|x ents IH]; simpl.
  - split; [intros [e H]; discriminate|intros H; inversion H].
  - rewrite Exists_cons, <- IH. unfold ent_getitem.
    destruct (group_startswith x (lit "ORG")).
    + destruct (assoc x (lit "word")) as [w|]; simpl.
      * split.
        -- intros [e H]. right. destruct (org_words ents); [discriminate|eauto].
        -- intros [[_ H]|[e H]]; [discriminate|]. rewrite H. simpl. eauto.
      * split; [intros _; left; auto|eauto].
    + split; [intros H; now right|intros [[H _]|H]; [discriminate|exact H]].
Qed.

Lemma build_structured_fields_raises_org (text : str) (ner : option (list entity)) (e : exn) :
  build_structured_fields text ner = Raise e <-> org_words (or_empty ner) = Raise e.
Proof.
  unfold build_structured_fields.
  destruct (org_words (or_empty ner)) as [orgs|e'].
  - destruct (scan_certs_projects text) as [certs projects].
    destruct (negb (is_nil (scan_edu_lines text))); simpl; split; discriminate.
  - destruct (negb (is_nil (scan_edu_lines text))); simpl;
      split; intros H; injection H as <-; reflexivity.
Qed.

Lemma detect_name_untagged (ents : list entity) :
  (forall x, In x ents -> group_startswith x (lit "PER") = false) ->
  detect_name ents = None.
Proof.
  induction ents as [|x ents IH]; simpl; intros H; [reflexivity|].
  rewrite (H x (or_introl eq_refl)). apply IH. intros y Hy. apply H. now right.
Qed.

Lemma org_words_untagged (ents : list entity) :
  (forall x, In x ents -> group_startswith x (lit "ORG") = false) ->
  org_words ents = Ok [].
Proof.
  induction ents as [|x ents IH]; simpl; intros H; [reflexivity|].
  rewrite (H x (or_introl eq_refl)). apply IH. intros y Hy. apply H. now right.
Qed.

Lemma not_tagged_false (tag : str) (x : entity) :
  tag <> [] -> upper tag = tag ->
  ~ tagged tag x -> group_startswith x tag = false.
Proof.
  intros H1 H2 H. destruct (group_startswith x tag) eqn:E; [|reflexivity].
  apply group_startswith_iff in E; auto. contradiction.
Qed.

(** First match of the name loop. *)
Lemma detect_name_first (ents : list entity) :
  (exists pre e post,
      ents = pre ++ e :: post
      /\ group_startswith e (lit "PER") = true
      /\ (forall x, In x pre -> group_startswith x (lit "PER") = false)
      /\ detect_name ents = ent_get e (lit "word"))
  \/ ((forall x, In x ents -> group_startswith x (lit "PER") = false)
      /\ detect_name ents = None).
Proof.
  induction ents as [|a ents IH]; simpl.
  - right. split; [intros x []|reflexivity].
  - destruct (group_startswith a (lit "PER")) eqn:Ea.
    + left. exists [], a, ents. repeat split; auto. intros x [].
    + destruct IH as [(pre & e & post & -> & He & Hpre & Hn)|[Hall Hn]].
      * left. exists (a :: pre), e, post. repeat split; auto.
        intros x [<-|Hx]; auto.
      * right. split; [|exact Hn]. intros x [<-|Hx]; auto.
Qed.

(** First match of the introduction loop. *)
Lemma find_intro_first (lines : list str) :
  (exists pre line post,
      lines = pre ++ line :: post
      /\ 30 < length (strip line)
      /\ (forall l, In l pre -> length (strip l) <= 30)
      /\ find_intro lines = strip line)
  \/ ((forall l, In l lines -> length (strip l) <= 30)
      /\ find_intro lines = []).
Proof.
  induction lines as [|a lines IH]; simpl.
  - right. split; [intros l []|reflexivity].
  - destruct (Nat.ltb_spec 30 (length (strip a))) as [Ha|Ha].
    + left. exists [], a, lines. repeat split; auto. intros l [].
    + destruct IH as [(pre & line & post & -> & Hl & Hpre & Hf)|[Hall Hf]].
      * left. exists (a :: pre), line, post. repeat split; auto.
        intros l [<-|Hl']; auto.
      * right. split; [|exact Hf]. intros l [<-|Hl']; auto.
Qed.

Lemma find_hobbies_filter (lower_text : str) :
  find_hobbies lower_text
  = filter (fun h => re_search_bounded [h] lower_text) hobby_keywords.
Proof.
  unfold find_hobbies.
  rewrite (@fold_left_collect str str _
             (fun h => re_search_bounded [h] lower_text) (fun h => h)).
  - now rewrite map_id.
  - reflexivity.
Qed.

(** ** Further properties of parser_utils.py *)

(** Every dictionary returned by [call_local_ner] has the two keys "word"
    and "entity_group", in that order and no other, whatever the pipeline
    returned. *)
Theorem call_local_ner_keys (g : globals) (text : str) :
  Forall (fun e => map fst e = [lit "word"; lit "entity_group"])
    (call_local_ner g text).
Proof.
  destruct (call_local_ner_map g text) as [ents ->].
  apply Forall_forall. intros e He.
  apply in_map_iff in He. destruct He as (e0 & <- & _). reflexivity.
Qed.

(** The extractor never raises on the entities that [call_local_ner]
    returns, for any text, any state of the models and any pipeline. *)
Theorem build_structured_fields_after_ner (g : globals) (text ner_text : str) :
  exists r,
    build_structured_fields text (Some (call_local_ner g ner_text)) = Ok r.
Proof.
  apply build_structured_fields_returns. simpl.
  destruct (call_local_ner_map g ner_text) as [ents ->].
  apply normalized_org_words_present.
Qed.

(** With the models loaded, the pipeline is called on [text[:45000]], a
    prefix of the text of at most 45000 characters (the text itself when it
    is that short), and the result has one normalised entity for each
    entity of the pipeline, in order; an exception of the pipeline gives the
    empty list. *)
Theorem call_local_ner_pipeline_input (g : globals) (ner : ner_pipe) (text : str) :
  models_loaded (qa_models g) = true -> ner_pipeline g = Some ner ->
  call_local_ner g text
  = match ner (slice_to max_chunk text) with
    | inl ents => map normalize_entity ents
    | inr _ => []
    end
  /\ (len (slice_to max_chunk text) <= max_chunk)%Z
  /\ (exists rest, text = slice_to max_chunk text ++ rest)
  /\ ((len text <= max_chunk)%Z -> slice_to max_chunk text = text).
Proof.
  intros H1 H2. split.
  - unfold call_local_ner. rewrite H1, H2.
    destruct (ner (slice_to max_chunk text)); [|reflexivity].
    now rewrite fold_left_snoc.
  - unfold slice_to. change (max_chunk <? 0)%Z with false. cbv iota.
    split; [|split].
    + unfold len. rewrite length_firstn. unfold max_chunk. lia.
    + eexists. symmetry. apply firstn_skipn.
    + intros H. apply firstn_all2. unfold len, max_chunk in *. lia.
Qed.

(** Without a loaded entity model, or when the pipeline raises, the record
    is the one built from the text alone. *)
Theorem build_structured_fields_without_ner (g : globals) (text ner_text : str) :
  (models_loaded (qa_models g) = false
   \/ ner_pipeline g = None
   \/ exists ner e,
        ner_pipeline g = Some ner /\ ner (slice_to max_chunk ner_text) = inr e) ->
  call_local_ner g ner_text = []
  /\ build_structured_fields text (Some (call_local_ner g ner_text))
     = build_structured_fields text None
  /\ exists r, build_structured_fields text None = Ok r.
Proof.
  intros H.
  assert (call_local_ner g ner_text = []) as E.
  { unfold call_local_ner.
    destruct H as [H|[H|(ner & e & H & He)]]; rewrite H.
    - reflexivity.
    - now destruct (models_loaded (qa_models g)).
    - destruct (models_loaded (qa_models g)); [|reflexivity]. now rewrite He. }
  split; [exact E|]. rewrite E. split; [reflexivity|].
  apply build_structured_fields_returns. constructor.
Qed.

(** For entities that have the key "word" and either a non-empty
    "entity_group" or no "entity" to fall back on, normalisation changes
    nothing of what the extractor computes. *)
Theorem normalize_entity_transparent (text : str) (ents : list entity) :
  Forall
    (fun e => assoc e (lit "word") <> None
              /\ (opt_truthy (ent_get e (lit "entity_group")) = true
                  \/ ent_get e (lit "entity") = None))
    ents ->
  build_structured_fields text (Some (map normalize_entity ents))
  = build_structured_fields text (Some ents).
Proof.
  intros H.
  assert (forall e tag,
            assoc e (lit "word") <> None
            /\ (opt_truthy (ent_get e (lit "entity_group")) = true
                \/ ent_get e (lit "entity") = None) ->
            group_startswith (normalize_entity e) tag = group_startswith e tag
            /\ ent_get (normalize_entity e) (lit "word") = ent_get e (lit "word")
            /\ ent_getitem (normalize_entity e) (lit "word")
               = ent_getitem e (lit "word")) as Hone.
  { intros e tag [Hw Hg].
    destruct (assoc e (lit "word")) as [w|] eqn:Ew; [|contradiction].
    assert (ent_get e (lit "word") = w) as Ew' by (unfold ent_get; now rewrite Ew).
    assert (ent_get (normalize_entity e) (lit "entity_group")
            = if opt_truthy (ent_get e (lit "entity_group"))
              then ent_get e (lit "entity_group")
              else ent_get e (lit "entity")) as Eg'
      by (unfold ent_get at 1; now rewrite assoc_normalize_group).
    split; [|split].
    - unfold group_startswith. rewrite Eg'.
      destruct (ent_get e (lit "entity_group")) as [[|c grp]|]; simpl.
      + destruct Hg as [Hg|Hg]; [discriminate|]. now rewrite Hg.
      + reflexivity.
      + destruct Hg as [Hg|Hg]; [discriminate|]. now rewrite Hg.
    - unfold ent_get at 1. now rewrite assoc_normalize_word, Ew.
    - unfold ent_getitem. now rewrite assoc_normalize_word, Ew, Ew'. }
  apply build_structured_fields_ext; simpl.
  - induction H as [|e ents He _ IH]; cbn [map detect_name]; [reflexivity|].
    destruct (Hone e (lit "PER") He) as (-> & -> & _). now rewrite IH.
  - induction H as [|e ents He _ IH]; cbn [map org_words]; [reflexivity|].
    destruct (Hone e (lit "ORG") He) as (-> & _ & ->). now rewrite IH.
Qed.

(** The name of a returned record is the word of the first entity tagged
    PER, up to letter case and in sequence order, the empty string when
    that word is [None]; without such an entity it is the empty string. *)
Theorem name_is_first_person (text : str) (ner : option (list entity)) (r : dict) :
  build_structured_fields text ner = Ok r ->
  (exists pre e post,
      or_empty ner = pre ++ e :: post
      /\ tagged (lit "PER") e
      /\ (forall x, In x pre -> ~ tagged (lit "PER") x)
      /\ assoc r (lit "name")
         = Some (VStr (match ent_get e (lit "word") with
                       | Some w => w
                       | None => []
                       end)))
  \/ ((forall x, In x (or_empty ner) -> ~ tagged (lit "PER") x)
      /\ assoc r (lit "name") = Some (VStr [])).
Proof.
  intros H. apply build_structured_fields_Ok in H.
  destruct H as (orgs & _ & ->).
  assert (forall x, group_startswith x (lit "PER") = true <-> tagged (lit "PER") x)
    as Htag by (intros x; apply group_startswith_iff; [discriminate|reflexivity]).
  destruct (detect_name_first (or_empty ner))
    as [(pre & e & post & E & He & Hpre & Hn)|[Hall Hn]].
  - left. exists pre, e, post. split; [exact E|]. split; [now apply Htag|].
    split.
    + intros x Hx Ht. apply Htag in Ht. rewrite (Hpre x Hx) in Ht. discriminate.
    + unfold structured. rewrite Hn. reflexivity.
  - right. split.
    + intros x Hx Ht. apply Htag in Ht. rewrite (Hall x Hx) in Ht. discriminate.
    + unfold structured. rewrite Hn. reflexivity.
Qed.

(** The hobbies of a returned record are the words of [hobby_keywords] that
    occur in the lower-cased text between word boundaries, in the order of
    that list, each at most once. *)
Theorem hobbies_in_keyword_order (text : str) (ner : option (list entity)) (r : dict) :
  build_structured_fields text ner = Ok r ->
  exists sel,
    (forall h, sel h = true <-> whole_word_in h (lower text))
    /\ assoc r (lit "hobbies") = Some (VList (map VStr (filter sel hobby_keywords)))
    /\ NoDup (filter sel hobby_keywords).
Proof.
  intros H. apply build_structured_fields_Ok in H.
  destruct H as (orgs & _ & ->).
  exists (fun h => re_search_bounded [h] (lower text)).
  split; [intros h; apply re_search_word_iff|].
  split; [unfold structured; now rewrite find_hobbies_filter|].
  apply NoDup_filter.
  apply (NoDup_count_occ' (list_eq_dec ascii_dec)).
  intros x Hx. unfold hobby_keywords in Hx. simpl in Hx.
  repeat (destruct Hx as [<-|Hx]; [vm_compute; reflexivity|]). destruct Hx.
Qed.

(** The introduction of a returned record is the stripped form of the first
    line of the text that is longer than 30 characters once stripped; when
    no line is, it is the empty string. *)
Theorem introduction_is_first_long_line
    (text : str) (ner : option (list entity)) (r : dict) :
  build_structured_fields text ner = Ok r ->
  (exists pre line post,
      splitlines text = pre ++ line :: post
      /\ 30 < length (strip line)
      /\ (forall l, In l pre -> length (strip l) <= 30)
      /\ assoc r (lit "introduction") = Some (VStr (strip line)))
  \/ ((forall l, In l (splitlines text) -> length (strip l) <= 30)
      /\ assoc r (lit "introduction") = Some (VStr [])).
Proof.
  intros H. apply build_structured_fields_Ok in H.
  destruct H as (orgs & _ & ->).
  destruct (find_intro_first (splitlines text))
    as [(pre & line & post & E & Hl & Hpre & Hf)|[Hall Hf]].
  - left. exists pre, line, post. repeat split; auto.
    unfold structured. now rewrite Hf.
  - right. split; [exact Hall|]. unfold structured. now rewrite Hf.
Qed.

(** The only exception of the extractor is [KeyError('word')], and it is
    raised exactly when some entity tagged ORG has no key "word". *)
Theorem build_structured_fields_raises_iff (text : str) (ner : option (list entity)) :
  (forall e, build_structured_fields text ner = Raise e -> e = KeyError (lit "word"))
  /\ ((exists e, build_structured_fields text ner = Raise e)
      <-> Exists (fun x => tagged (lit "ORG") x /\ assoc x (lit "word") = None)
            (or_empty ner)).
Proof.
  split.
  - intros e H. apply (proj1 (@build_structured_fields_raises_org text ner e)) in H.
    now apply org_words_raises in H.
  - assert (Exists (fun x => tagged (lit "ORG") x /\ assoc x (lit "word") = None)
              (or_empty ner)
            <-> Exists (fun x => group_startswith x (lit "ORG") = true
                                 /\ assoc x (lit "word") = None) (or_empty ner)) as ->.
    { rewrite !Exists_exists. split; intros (x & Hx & Ht & Hw); exists x;
        (split; [exact Hx|split; [|exact Hw]]);
        apply (group_startswith_iff x (tag:=lit "ORG")); auto; discriminate. }
    rewrite <- org_words_raises_iff.
    split; intros [e H]; exists e.
    + now apply (proj1 (@build_structured_fields_raises_org text ner e)).
    + now apply (proj2 (@build_structured_fields_raises_org text ner e)).
Qed.

(** Entities tagged neither PER nor ORG leave no trace: the record is the
    one built from the text alone. *)
Theorem untagged_entities_ignored (text : str) (ents : list entity) :
  (forall x, In x ents -> ~ tagged (lit "PER") x /\ ~ tagged (lit "ORG") x) ->
  build_structured_fields text (Some ents) = build_structured_fields text None.
Proof.
  intros H. apply build_structured_fields_ext; simpl.
  - apply detect_name_untagged. intros x Hx.
    apply not_tagged_false; [discriminate|reflexivity|]. now apply H.
  - apply org_words_untagged. intros x Hx.
    apply not_tagged_false; [discriminate|reflexivity|]. now apply H.
Qed.

(** Whatever calls of [try_load_models] were made since the module was
    imported, either both pipelines are set and the models count as loaded,
    or the globals are those of the start: the two pipelines are available
    together or not at all. *)
Theorem try_load_models_invariant (attempts : list load_attempt) :
  let g := load_attempts attempts INITIAL_GLOBALS in
  (models_loaded (qa_models g) = true
   /\ ner_pipeline g <> None /\ qa_pipeline (qa_models g) <> None)
  \/ g = INITIAL_GLOBALS.
Proof.
  unfold load_attempts.
  assert (forall g,
            (models_loaded (qa_models g) = true
             /\ ner_pipeline g <> None /\ qa_pipeline (qa_models g) <> None)
            \/ g = INITIAL_GLOBALS ->
            forall a n q,
              let g' := try_load_models a n q g in
              (models_loaded (qa_models g') = true
               /\ ner_pipeline g' <> None /\ qa_pipeline (qa_models g') <> None)
              \/ g' = INITIAL_GLOBALS) as Hstep.
  { intros g [(Hl & Hn & Hq)| ->] a n q; unfold try_load_models.
    - rewrite Hl. left. auto.
    - simpl. destruct a; simpl; [|now right].
      destruct n as [n|], q as [q|]; simpl; try (now right).
      left. repeat split; discriminate. }
  assert (forall l g,
            (models_loaded (qa_models g) = true
             /\ ner_pipeline g <> None /\ qa_pipeline (qa_models g) <> None)
            \/ g = INITIAL_GLOBALS ->
            let g' := fold_left
                        (fun g '(available, load_ner, load_qa) =>
                           try_load_models available load_ner load_qa g) l g in
            (models_loaded (qa_models g') = true
             /\ ner_pipeline g' <> None /\ qa_pipeline (qa_models g') <> None)
            \/ g' = INITIAL_GLOBALS) as Hall.
  { induction l as [|[[a n] q] l IH]; intros g Hg; simpl; [exact Hg|].
    apply IH. now apply Hstep. }
  apply Hall. now right.
Qed.

(** Once the models are loaded, no later call of [try_load_models] changes
    the globals, whatever the loads would give. *)
Theorem try_load_models_stable (attempts : list load_attempt) (g : globals) :
  models_loaded (qa_models g) = true ->
  load_attempts attempts g = g.
Proof.
  intros H. unfold load_attempts.
  induction attempts as [|[[a n] q] l IH]; simpl; [reflexivity|].
  unfold try_load_models at 2. now rewrite H.
Qed.

(** A failed load is retried by the next call: from the initial globals, an
    attempt that fails followed by one that succeeds ends loaded. *)
Theorem try_load_models_retry
    (a1 : load_attempt) (ner : ner_pipe) (qa : pipeline) :
  load_attempts [a1] INITIAL_GLOBALS = INITIAL_GLOBALS ->
  load_attempts [a1; (true, Some ner, Some qa)] INITIAL_GLOBALS
  = {| ner_pipeline := Some ner;
       qa_models := {| models_loaded := true; qa_pipeline := Some qa |} |}.
Proof.
  unfold load_attempts. destruct a1 as [[a n] q]. simpl. intros ->. reflexivity.
Qed.

Lemma join_lines_nil_iff (parts : list str) :
  (forall p, In p parts -> p <> []) ->
  (join_lines parts = [] <-> parts = []).
Proof.
  intros H. split; [|intros ->; reflexivity].
  destruct parts as [|p rest]; [reflexivity|].
  intros E. exfalso. apply (H p (or_introl eq_refl)).
  destruct rest; simpl in E; [exact E|].
  destruct p; [reflexivity|discriminate].
Qed.

Lemma join_lines_occurs (parts : list str) (p : str) :
  In p parts -> occurs_in p (join_lines parts).
Proof.
  induction parts as [|a rest IH]; intros H; [destruct H|].
  destruct rest as [|b rest].
  - destruct H as [<-|[]]. exists [], []. simpl. now rewrite app_nil_r.
  - change (join_lines (a :: b :: rest)) with (a ++ NL ++ join_lines (b :: rest)).
    destruct H as [<-|H].
    + exists [], (NL ++ join_lines (b :: rest)). reflexivity.
    + destruct (IH H) as (pre & post & E). rewrite E.
      exists (a ++ NL ++ pre), post. now rewrite <- !app_assoc.
Qed.

Lemma filter_nonempty_nil (pages : list str) :
  filter (fun t => negb (is_nil t)) pages = [] <-> forall p, In p pages -> p = [].
Proof.
  induction pages as [|a l IH]; simpl.
  - split; [intros _ p []|reflexivity].
  - destruct a as [|c a]; simpl.
    + rewrite IH. split; [intros H p [<-|Hp]; auto|intros H p Hp; apply H; now right].
    + split; [discriminate|intros H; discriminate (H (c :: a) (or_introl eq_refl))].
Qed.

(** The text of a PDF that opens holds the text of every page, and it is
    empty exactly when every page is. *)
Theorem extract_text_from_pdf_pages
    (fitz_open : str -> list str + str) (file_path : str) (pages : list str) :
  fitz_open file_path = inl pages ->
  exists text,
    extract_text_from_pdf fitz_open file_path = inl text
    /\ (forall p, In p pages -> occurs_in p text)
    /\ (text = [] <-> forall p, In p pages -> p = []).
Proof.
  intros H. unfold extract_text_from_pdf. rewrite H.
  rewrite (@fold_left_collect str str _ (fun t => negb (is_nil t)) (fun t => t))
    by reflexivity.
  rewrite map_id. simpl. eexists. split; [reflexivity|]. split.
  - intros p Hp. destruct p as [|c p].
    + exists [], (join_lines (filter (fun t => negb (is_nil t)) pages)). reflexivity.
    + apply join_lines_occurs. apply filter_In. split; [exact Hp|reflexivity].
  - rewrite join_lines_nil_iff; [apply filter_nonempty_nil|].
    intros p Hp. apply filter_In in Hp. destruct Hp as [_ Hp].
    destruct p; discriminate.
Qed.

(** ** Further properties of the handler of /ask *)

Lemma opt_truthy_cases (o : option str) :
  (opt_truthy o = false /\ (o = None \/ o = Some []))
  \/ (exists c q, o = Some (c :: q)).
Proof. destruct o as [[|c q]|]; simpl; eauto. Qed.

(** The handler answers 400 exactly when the body has no usable question
    (missing, [None] or empty), before the candidate is looked up, and 404
    exactly when the question is usable and the candidate is not found. *)
Theorem ask_candidate_rejections
    (py_repr : pyval -> str) (m : models) (find_one : str -> option dict)
    (candidate_id : str) (question : entity) :
  (ask_candidate py_repr m find_one candidate_id question
   = Raise (HTTPException 400 (lit "Missing 'question' in body"))
   <-> opt_truthy (ent_get question (lit "question")) = false)
  /\ (ask_candidate py_repr m find_one candidate_id question
      = Raise (HTTPException 404 (lit "Candidate not found"))
      <-> opt_truthy (ent_get question (lit "question")) = true
          /\ (find_one candidate_id = None \/ find_one candidate_id = Some [])).
Proof.
  unfold ask_candidate.
  destruct (ent_get question (lit "question")) as [[|c q]|]; simpl.
  - split; split; try reflexivity; try discriminate. intros [H _]. discriminate.
  - destruct (find_one candidate_id) as [[|kv d]|].
    + split; split; try discriminate; auto.
    + destruct (normalize_response _ _) as [a|e]; split; split;
        try discriminate; intros [_ [H|H]]; discriminate.
    + split; split; try discriminate; auto.
  - split; split; try reflexivity; try discriminate. intros [H _]. discriminate.
Qed.



Lemma build_context_ext (py_repr : pyval -> str) (d1 d2 : dict) :
  (forall k, In k CONTEXT_KEYS -> dict_get d1 k = dict_get d2 k) ->
  build_context py_repr d1 = build_context py_repr d2.
Proof.
  intros H. unfold build_context. f_equal.
  assert (forall ks acc,
            (forall k, In k ks -> dict_get d1 k = dict_get d2 k) ->
            fold_left
              (fun context_parts key =>
                 let val := dict_get d1 key in
                 if truthy val
                 then context_parts ++ [context_part py_repr key val]
                 else context_parts) ks acc
            = fold_left
                (fun context_parts key =>
                   let val := dict_get d2 key in
                   if truthy val
                   then context_parts ++ [context_part py_repr key val]
                   else context_parts) ks acc) as Hfold.
  { induction ks as [|k ks IH]; intros acc Hks; simpl; [reflexivity|].
    rewrite (Hks k (or_introl eq_refl)).
    apply IH. intros k' Hk'. apply Hks. now right. }
  now apply Hfold.
Qed.

Lemma dict_get_dict_set (d : dict) (k k' : str) (v : pyval) :
  dict_get (dict_set d k v) k' = if str_eqb k k' then v else dict_get d k'.
Proof.
  unfold dict_get. induction d as [|[k0 v0] d IH]; simpl.
  - destruct (str_eqb k k'); reflexivity.
  - destruct (str_eqb k0 k) eqn:E0; simpl.
    + apply str_eqb_eq in E0. subst k0. destruct (str_eqb k k'); reflexivity.
    + destruct (str_eqb k0 k') eqn:E1.
      * apply str_eqb_eq in E1. subst k0. now rewrite (proj2 (str_eqb_neq _ _)) by
          (intros ->; now rewrite str_eqb_refl in E0).
      * exact IH.
Qed.

(** The context is built from the seven fields of [CONTEXT_KEYS] only:
    setting any other key of a candidate (its name, its identifier, the
    snippet of raw text) leaves the context as it is. *)
Theorem build_context_ignores_other_fields
    (py_repr : pyval -> str) (d : dict) (k : str) (v : pyval) :
  ~ In k CONTEXT_KEYS ->
  build_context py_repr (dict_set d k v) = build_context py_repr d
  /\ build_context py_repr (dict_set d (lit "name") v) = build_context py_repr d.
Proof.
  intros Hk. split; apply build_context_ext; intros k' Hk';
    rewrite dict_get_dict_set.
  - destruct (str_eqb k k') eqn:E; [|reflexivity].
    apply str_eqb_eq in E. subst k'. contradiction.
  - destruct (str_eqb (lit "name") k') eqn:E; [|reflexivity].
    apply str_eqb_eq in E. subst k'. exfalso.
    unfold CONTEXT_KEYS in Hk'. simpl in Hk'.
    repeat (destruct Hk' as [Hk'|Hk']; [discriminate Hk'|]). exact Hk'.
Qed.

(** A candidate none of whose seven fields holds anything has the empty
    context, and without a model every question about it gets the fixed
    reply. *)
Theorem empty_record_no_answer
    (py_repr : pyval -> str) (m : models) (d : dict) (question : str) (top_k : nat) :
  (forall k, In k CONTEXT_KEYS -> truthy (dict_get d k) = false) ->
  model_available m = false ->
  build_context py_repr d = []
  /\ call_local_qa m question (build_context py_repr d) top_k
     = VDict [(lit "answer", VStr NO_ANSWER)].
Proof.
  intros H Hm.
  assert (build_context py_repr d = []) as E.
  { unfold build_context.
    assert (forall ks acc,
              (forall k, In k ks -> truthy (dict_get d k) = false) ->
              fold_left
                (fun context_parts key =>
                   let val := dict_get d key in
                   if truthy val
                   then context_parts ++ [context_part py_repr key val]
                   else context_parts) ks acc = acc) as Hfold.
    { induction ks as [|k ks IH]; intros acc Hks; simpl; [reflexivity|].
      rewrite (Hks k (or_introl eq_refl)). apply IH.
      intros k' Hk'. apply Hks. now right. }
    now rewrite Hfold. }
  split; [exact E|]. rewrite E, (call_local_qa_fallback _ _ _ _ Hm). reflexivity.
Qed.

(** With a model loaded whose reply is a dictionary, or a list beginning
    with a dictionary, that holds a non-empty answer, the handler returns
    that answer. *)
Theorem ask_candidate_model_answer
    (py_repr : pyval -> str) (m : models) (qa : pipeline)
    (find_one : str -> option dict) (candidate_id : str) (question : entity)
    (q : str) (d : dict) (reply : pyval) (fields : dict) (rest : list pyval) (a : pyval) :
  models_loaded m = true -> qa_pipeline m = Some qa ->
  ent_get question (lit "question") = Some q -> q <> [] ->
  find_one candidate_id = Some d -> d <> [] ->
  qa q (model_context (build_context py_repr d)) 1 = inl reply ->
  reply = VDict fields \/ reply = VList (VDict fields :: rest) ->
  dict_get fields (lit "answer") = a -> truthy a = true ->
  ask_candidate py_repr m find_one candidate_id question
  = Ok [ (lit "candidate_id", VStr candidate_id);
         (lit "question", VStr q);
         (lit "answer", a) ].
Proof.
  intros Hm Hqa Hq Hq' Hd Hd' Hr Hshape Ha Ht. unfold ask_candidate.
  rewrite Hq, Hd.
  destruct q as [|c q]; [contradiction|].
  destruct d as [|kv d]; [contradiction|].
  rewrite (call_local_qa_model _ _ _ _ Hm Hqa), Hr.
  destruct Hshape as [-> | ->]; simpl; rewrite Ha, Ht; reflexivity.
Qed.

(** With a model loaded whose reply is a dictionary with neither a
    non-empty answer nor an error, the handler does not fail: the answer is
    the printed form of the whole reply. *)
Theorem ask_candidate_model_no_answer
    (py_repr : pyval -> str) (m : models) (qa : pipeline)
    (find_one : str -> option dict) (candidate_id : str) (question : entity)
    (q : str) (d : dict) (fields : dict) :
  models_loaded m = true -> qa_pipeline m = Some qa ->
  ent_get question (lit "question") = Some q -> q <> [] ->
  find_one candidate_id = Some d -> d <> [] ->
  qa q (model_context (build_context py_repr d)) 1 = inl (VDict fields) ->
  truthy (dict_get fields (lit "answer")) = false ->
  truthy (dict_get fields (lit "error")) = false ->
  ask_candidate py_repr m find_one candidate_id question
  = Ok [ (lit "candidate_id", VStr candidate_id);
         (lit "question", VStr q);
         (lit "answer", VStr (py_repr (VDict fields))) ].
Proof.
  intros Hm Hqa Hq Hq' Hd Hd' Hr Ha He. unfold ask_candidate.
  rewrite Hq, Hd.
  destruct q as [|c q]; [contradiction|].
  destruct d as [|kv d]; [contradiction|].
  rewrite (call_local_qa_model _ _ _ _ Hm Hqa), Hr. simpl.
  rewrite Ha, He. reflexivity.
Qed.

(** ** Properties of the upload *)


Lemma endswith_iff (s p : str) : endswith s p = true <-> exists pre, s = pre ++ p.
Proof.
  unfold endswith. rewrite startswith_iff. split.
  - intros [post H]. exists (rev post).
    rewrite <- (rev_involutive s), H, rev_app_distr, rev_involutive. reflexivity.
  - intros [pre ->]. exists (rev pre). apply rev_app_distr.
Qed.

Lemma endswith_lower_iff (s p : str) :
  endswith (lower s) p = true <-> exists stem ext, s = stem ++ ext /\ lower ext = p.
Proof.
  rewrite endswith_iff. split.
  - intros [pre H]. apply map_eq_app in H.
    destruct H as (stem & ext & -> & _ & H). now exists stem, ext.
  - intros (stem & ext & -> & <-). exists (lower stem). apply lower_app.
Qed.

Lemma dict_update_record (base : dict) (text : str) (ner : option (list entity)) (r : dict) :
  map fst base = UPLOAD_KEYS ->
  build_structured_fields text ner = Ok r ->
  dict_update base r = base ++ r.
Proof.
  intros Hb H. apply build_structured_fields_Ok in H. destruct H as (orgs & _ & ->).
  destruct base as [|[k1 v1] [|[k2 v2] [|[k3 v3] [|[k4 v4] [|[k5 v5] [|]]]]]];
    try discriminate.
  injection Hb as -> -> -> -> ->. reflexivity.
Qed.

(** What a successful upload consists of. *)
Lemma upload_resume_Ok
    (py_repr : pyval -> str) (g : globals) (io : upload_io) (filename : str)
    (doc : dict) (resp : response) :
  upload_resume py_repr g io filename = Ok (doc, resp) ->
  allowed_extension filename = true
  /\ storage_accepted io = true
  /\ io_insert_one io = None
  /\ exists text r,
       upload_text io filename = inl text
       /\ build_structured_fields text
            (Some (call_local_ner g (slice_to 45000 text))) = Ok r
       /\ doc = [ (lit "candidate_id",
                    metadata_id_of (io_metadata_insert io) (io_fresh_id io));
                  (lit "file_name", VStr filename);
                  (lit "storage_path", VStr (io_uid io ++ lit "/" ++ filename));
                  (lit "uploaded_at", io_now io);
                  (lit "raw_text_snippet", VStr (slice_to 3000 text)) ] ++ r
       /\ resp = JSONResponse 201
                   [ (lit "message", VStr (lit "Uploaded and processed"));
                     (lit "candidate_id",
                       metadata_id_of (io_metadata_insert io) (io_fresh_id io)) ].
Proof.
  unfold upload_resume, allowed_extension, upload_text, storage_accepted.
  destruct (endswith (lower filename) (lit ".pdf")
            || endswith (lower filename) (lit ".docx")); simpl; [|discriminate].
  destruct (if endswith (lower filename) (lit ".pdf") then _ else _) as [text|e];
    [|discriminate].
  destruct (build_structured_fields text
              (Some (call_local_ner g (slice_to 45000 text)))) as [r|e] eqn:Er;
    simpl; [|discriminate].
  destruct (io_storage_upload io) as [res|e]; [|discriminate].
  destruct res as [|s|l|d]; simpl;
    try (destruct (truthy (dict_get d (lit "error"))); simpl; [discriminate|]);
    (destruct (io_insert_one io) as [e|]; [discriminate|]);
    intros H; injection H as <- <-;
    (split; [reflexivity|]); (split; [reflexivity|]); (split; [reflexivity|]);
    exists text, r; (split; [reflexivity|]); (split; [exact Er|]);
    (split; [|reflexivity]);
    (eapply dict_update_record; [reflexivity|exact Er]).
Qed.


(** The upload is refused with status 400 exactly when the file name does
    not end, up to letter case, with ".pdf" or ".docx"; nothing else of the
    request or of the outside world is consulted. *)
Theorem upload_resume_extension_gate
    (py_repr : pyval -> str) (g : globals) (io : upload_io) (filename : str) :
  upload_resume py_repr g io filename
  = Raise (HTTPException 400 (lit "Only .pdf and .docx allowed"))
  <-> ~ exists stem ext,
          filename = stem ++ ext
          /\ (lower ext = lit ".pdf" \/ lower ext = lit ".docx").
Proof.
  assert (allowed_extension filename = true
          <-> exists stem ext,
                filename = stem ++ ext
                /\ (lower ext = lit ".pdf" \/ lower ext = lit ".docx")) as Hext.
  { unfold allowed_extension. rewrite orb_true_iff, !endswith_lower_iff. split.
    - intros [(stem & ext & H & E)|(stem & ext & H & E)]; exists stem, ext; auto.
    - intros (stem & ext & H & [E|E]); [left|right]; now exists stem, ext. }
  rewrite <- Hext. unfold upload_resume, allowed_extension.
  destruct (endswith (lower filename) (lit ".pdf")
            || endswith (lower filename) (lit ".docx")); simpl.
  - split; [|intros H; now destruct H].
    destruct (if endswith (lower filename) (lit ".pdf") then _ else _) as [text|e];
      [|discriminate].
    destruct (build_structured_fields text _) as [r|e] eqn:Er; simpl.
    + destruct (io_storage_upload io) as [[|s|l|d]|e]; simpl; try discriminate;
        try (destruct (io_insert_one io); discriminate).
      destruct (truthy (dict_get d (lit "error"))); simpl; [discriminate|].
      destruct (io_insert_one io); discriminate.
    + apply build_structured_fields_raises in Er. subst e. discriminate.
  - split; [discriminate|reflexivity].
Qed.



Lemma slice_to_prefix (n : Z) (s : str) :
  (0 <= n)%Z ->
  (len (slice_to n s) <= n)%Z /\ exists rest, s = slice_to n s ++ rest.
Proof.
  intros Hn. unfold slice_to.
  destruct (Z.ltb_spec n 0) as [H|_]; [lia|]. split.
  - unfold len. rewrite length_firstn. lia.
  - eexists. symmetry. apply firstn_skipn.
Qed.

(** The document stored by a successful upload: after the five keys of the
    upload come the eight fields of the record that the extractor builds
    from the whole text and from the entities recognised in its first 45000
    characters; the snippet is the first 3000 characters of the text; the
    response has status 201 and carries the identifier of the document. *)
Theorem upload_resume_stores_record
    (py_repr : pyval -> str) (g : globals) (io : upload_io) (filename : str)
    (doc : dict) (resp : response) :
  upload_resume py_repr g io filename = Ok (doc, resp) ->
  exists text r,
    upload_text io filename = inl text
    /\ build_structured_fields text
         (Some (call_local_ner g (slice_to 45000 text))) = Ok r
    /\ map fst doc = UPLOAD_KEYS ++ map fst SCHEMA
    /\ (forall k, In k (map fst SCHEMA) -> assoc doc k = assoc r k)
    /\ dict_get doc (lit "file_name") = VStr filename
    /\ dict_get doc (lit "raw_text_snippet") = VStr (slice_to 3000 text)
    /\ (len (slice_to 3000 text) <= 3000)%Z
    /\ (exists rest, text = slice_to 3000 text ++ rest)
    /\ resp = JSONResponse 201
                [ (lit "message", VStr (lit "Uploaded and processed"));
                  (lit "candidate_id", dict_get doc (lit "candidate_id")) ].
Proof.
  intros H. apply upload_resume_Ok in H.
  destruct H as (_ & _ & _ & text & r & Ht & Hr & -> & ->).
  exists text, r. split; [exact Ht|]. split; [exact Hr|].
  destruct (build_structured_fields_Ok _ _ Hr) as (orgs & _ & Er).
  split; [rewrite Er; reflexivity|].
  split.
  { intros k Hk. simpl in Hk.
    repeat (destruct Hk as [<-|Hk]; [reflexivity|]). destruct Hk. }
  split; [reflexivity|]. split; [reflexivity|].
  destruct (@slice_to_prefix 3000 text) as [Hlen Hpre]; [lia|].
  split; [exact Hlen|]. split; [exact Hpre|]. reflexivity.
Qed.

(** When the insertion of the metadata raises, or replies with an error,
    the upload still succeeds as it would have, and the candidate gets the
    freshly generated identifier, in the stored document and in the
    response alike. *)
Theorem upload_resume_metadata_failure
    (py_repr : pyval -> str) (g : globals) (io : upload_io) (filename : str)
    (doc : dict) (resp : response) :
  ((exists e, io_metadata_insert io = inr e)
   \/ exists d, io_metadata_insert io = inl (VDict d)
                /\ truthy (dict_get d (lit "error")) = true) ->
  upload_resume py_repr g io filename = Ok (doc, resp) ->
  dict_get doc (lit "candidate_id") = VStr (io_fresh_id io)
  /\ resp = JSONResponse 201
              [ (lit "message", VStr (lit "Uploaded and processed"));
                (lit "candidate_id", VStr (io_fresh_id io)) ].
Proof.
  intros Hm H. apply upload_resume_Ok in H.
  destruct H as (_ & _ & _ & text & r & _ & _ & -> & ->).
  assert (metadata_id_of (io_metadata_insert io) (io_fresh_id io)
          = VStr (io_fresh_id io)) as E.
  { destruct Hm as [[e ->]|(d & -> & Hd)]; [reflexivity|].
    simpl. now rewrite Hd. }
  rewrite E. split; reflexivity.
Qed.

Lemma list_candidates_map (docs : list dict) :
  list_candidates docs
  = map (fun d =>
           [ (lit "candidate_id", dict_get d (lit "candidate_id"));
             (lit "name", dict_get_default d (lit "name") (VStr []));
             (lit "skills", dict_get_default d (lit "skills") (VList []));
             (lit "uploaded_at", dict_get d (lit "uploaded_at"));
             (lit "brief_intro", dict_get_default d (lit "introduction") (VStr [])) ])
      docs.
Proof. unfold list_candidates. now rewrite fold_left_snoc. Qed.

(** The listing keeps the order of the collection, and the summary of a
    document stored by an upload shows the identifier of the response, the
    name, the skills and the introduction of its record, and the time of
    the upload. *)
Theorem list_candidates_after_upload
    (py_repr : pyval -> str) (g : globals) (io : upload_io) (filename : str)
    (doc : dict) (content : dict) (status : nat) (before after : list dict) :
  upload_resume py_repr g io filename = Ok (doc, JSONResponse status content) ->
  exists text r,
    upload_text io filename = inl text
    /\ build_structured_fields text
         (Some (call_local_ner g (slice_to 45000 text))) = Ok r
    /\ nth_error (list_candidates (before ++ doc :: after)) (length before)
       = Some [ (lit "candidate_id", dict_get content (lit "candidate_id"));
                (lit "name", dict_get r (lit "name"));
                (lit "skills", dict_get r (lit "skills"));
                (lit "uploaded_at", io_now io);
                (lit "brief_intro", dict_get r (lit "introduction")) ].
Proof.
  intros H. apply upload_resume_Ok in H.
  destruct H as (_ & _ & _ & text & r & Ht & Hr & -> & Hresp).
  injection Hresp as -> ->.
  exists text, r. split; [exact Ht|]. split; [exact Hr|].
  rewrite list_candidates_map, map_app, nth_error_app2
    by (rewrite length_map; lia).
  rewrite length_map, Nat.sub_diag. cbn [map nth_error].
  destruct (build_structured_fields_Ok _ _ Hr) as (orgs & _ & ->).
  reflexivity.
Qed.

(** The context of a question about an uploaded candidate is the context of
    its record: what the upload adds (identifier, file name, storage path,
    time, snippet of raw text) is no part of it. *)
Theorem build_context_after_upload
    (py_repr : pyval -> str) (g : globals) (io : upload_io) (filename : str)
    (doc : dict) (resp : response) :
  upload_resume py_repr g io filename = Ok (doc, resp) ->
  exists text r,
    upload_text io filename = inl text
    /\ build_structured_fields text
         (Some (call_local_ner g (slice_to 45000 text))) = Ok r
    /\ build_context py_repr doc = build_context py_repr r.
Proof.
  intros H. apply upload_resume_Ok in H.
  destruct H as (_ & _ & _ & text & r & Ht & Hr & -> & _).
  exists text, r. split; [exact Ht|]. split; [exact Hr|].
  apply build_context_ext. intros k Hk.
  unfold CONTEXT_KEYS in Hk. simpl in Hk.
  repeat (destruct Hk as [<-|Hk]; [reflexivity|]). destruct Hk.
Qed.

(** ** The further properties on the sample inputs *)

Lemma call_local_ner_pipeline_input_witness :
  models_loaded (qa_models GLOBALS_LOADED) = true
  /\ ner_pipeline GLOBALS_LOADED = Some SAMPLE_NER
  /\ call_local_ner GLOBALS_LOADED SAMPLE_RESUME
     = match SAMPLE_NER (slice_to max_chunk SAMPLE_RESUME) with
       | inl ents => map normalize_entity ents
       | inr _ => []
       end
  /\ (len (slice_to max_chunk SAMPLE_RESUME) <= max_chunk)%Z
  /\ (exists rest, SAMPLE_RESUME = slice_to max_chunk SAMPLE_RESUME ++ rest)
  /\ ((len SAMPLE_RESUME <= max_chunk)%Z
      -> slice_to max_chunk SAMPLE_RESUME = SAMPLE_RESUME).
Proof.
  split; [reflexivity|]. split; [reflexivity|].
  apply (@call_local_ner_pipeline_input GLOBALS_LOADED SAMPLE_NER SAMPLE_RESUME);
    reflexivity.
Defined.

Lemma build_structured_fields_without_ner_witness :
  models_loaded (qa_models INITIAL_GLOBALS) = false
  /\ call_local_ner INITIAL_GLOBALS SAMPLE_RESUME = []
  /\ build_structured_fields SAMPLE_RESUME
       (Some (call_local_ner INITIAL_GLOBALS SAMPLE_RESUME))
     = build_structured_fields SAMPLE_RESUME None
  /\ exists r, build_structured_fields SAMPLE_RESUME None = Ok r.
Proof.
  split; [reflexivity|].
  apply (@build_structured_fields_without_ner INITIAL_GLOBALS SAMPLE_RESUME
           SAMPLE_RESUME).
  left. reflexivity.
Defined.

Lemma normalize_entity_transparent_witness :
  build_structured_fields SAMPLE_RESUME (Some (map normalize_entity SAMPLE_ENTITIES))
  = build_structured_fields SAMPLE_RESUME (Some SAMPLE_ENTITIES).
Proof.
  apply (@normalize_entity_transparent SAMPLE_RESUME SAMPLE_ENTITIES).
  repeat constructor; try (left; reflexivity); intros H; vm_compute in H;
    discriminate H.
Defined.

Lemma name_is_first_person_witness :
  exists r,
    build_structured_fields SAMPLE_RESUME (Some SAMPLE_ENTITIES) = Ok r
    /\ ((exists pre e post,
            or_empty (Some SAMPLE_ENTITIES) = pre ++ e :: post
            /\ tagged (lit "PER") e
            /\ (forall x, In x pre -> ~ tagged (lit "PER") x)
            /\ assoc r (lit "name")
               = Some (VStr (match ent_get e (lit "word") with
                             | Some w => w
                             | None => []
                             end)))
        \/ ((forall x, In x (or_empty (Some SAMPLE_ENTITIES)) -> ~ tagged (lit "PER") x)
            /\ assoc r (lit "name") = Some (VStr []))).
Proof.
  eexists. split; [reflexivity|].
  apply (@name_is_first_person SAMPLE_RESUME (Some SAMPLE_ENTITIES)). reflexivity.
Defined.

Lemma hobbies_in_keyword_order_witness :
  exists r,
    build_structured_fields (lit "Cricket, music and travel") None = Ok r
    /\ exists sel,
         (forall h, sel h = true
                    <-> whole_word_in h (lower (lit "Cricket, music and travel")))
         /\ assoc r (lit "hobbies")
            = Some (VList (map VStr (filter sel hobby_keywords)))
         /\ NoDup (filter sel hobby_keywords).
Proof.
  eexists. split; [reflexivity|].
  apply (@hobbies_in_keyword_order (lit "Cricket, music and travel") None).
  reflexivity.
Defined.

Lemma introduction_is_first_long_line_witness :
  exists r,
    build_structured_fields SAMPLE_RESUME None = Ok r
    /\ ((exists pre line post,
            splitlines SAMPLE_RESUME = pre ++ line :: post
            /\ 30 < length (strip line)
            /\ (forall l, In l pre -> length (strip l) <= 30)
            /\ assoc r (lit "introduction") = Some (VStr (strip line)))
        \/ ((forall l, In l (splitlines SAMPLE_RESUME) -> length (strip l) <= 30)
            /\ assoc r (lit "introduction") = Some (VStr []))).
Proof.
  eexists. split; [reflexivity|].
  apply (@introduction_is_first_long_line SAMPLE_RESUME None). reflexivity.
Defined.

Lemma untagged_entities_ignored_witness :
  build_structured_fields SAMPLE_RESUME (Some UNTAGGED_ENTITIES)
  = build_structured_fields SAMPLE_RESUME None.
Proof.
  apply (@untagged_entities_ignored SAMPLE_RESUME UNTAGGED_ENTITIES).
  intros x [<-|[<-|[]]]; split; intros Ht;
    apply group_startswith_iff in Ht; try discriminate; reflexivity.
Defined.

Lemma try_load_models_stable_witness :
  models_loaded (qa_models GLOBALS_LOADED) = true
  /\ load_attempts [(true, None, None); (false, None, None)] GLOBALS_LOADED
     = GLOBALS_LOADED.
Proof.
  split; [reflexivity|].
  apply (@try_load_models_stable [(true, None, None); (false, None, None)]
           GLOBALS_LOADED).
  reflexivity.
Defined.

Lemma try_load_models_retry_witness :
  load_attempts [(true, Some SAMPLE_NER, None)] INITIAL_GLOBALS = INITIAL_GLOBALS
  /\ load_attempts [(true, Some SAMPLE_NER, None); (true, Some SAMPLE_NER, Some ECHO_QA)]
       INITIAL_GLOBALS
     = {| ner_pipeline := Some SAMPLE_NER;
          qa_models := {| models_loaded := true; qa_pipeline := Some ECHO_QA |} |}.
Proof.
  split; [reflexivity|].
  apply (@try_load_models_retry (true, Some SAMPLE_NER, None) SAMPLE_NER ECHO_QA).
  reflexivity.
Defined.

Lemma extract_text_from_pdf_pages_witness :
  exists text,
    extract_text_from_pdf (fun _ => inl SAMPLE_PAGES) (lit "/tmp/resumes/u1_CV.PDF")
    = inl text
    /\ (forall p, In p SAMPLE_PAGES -> occurs_in p text)
    /\ (text = [] <-> forall p, In p SAMPLE_PAGES -> p = []).
Proof.
  apply (@extract_text_from_pdf_pages (fun _ => inl SAMPLE_PAGES)
           (lit "/tmp/resumes/u1_CV.PDF") SAMPLE_PAGES).
  reflexivity.
Defined.



Lemma build_context_ignores_other_fields_witness :
  build_context SAMPLE_REPR
    (dict_set SAMPLE_DOC (lit "raw_text_snippet") (VStr (lit "Jane Doe")))
  = build_context SAMPLE_REPR SAMPLE_DOC
  /\ build_context SAMPLE_REPR (dict_set SAMPLE_DOC (lit "name") (VStr (lit "Jane Doe")))
     = build_context SAMPLE_REPR SAMPLE_DOC.
Proof.
  apply (@build_context_ignores_other_fields SAMPLE_REPR SAMPLE_DOC
           (lit "raw_text_snippet") (VStr (lit "Jane Doe"))).
  intros H. unfold CONTEXT_KEYS in H. simpl in H.
  repeat (destruct H as [H|H]; [discriminate H|]). exact H.
Defined.

Lemma empty_record_no_answer_witness :
  model_available NO_MODELS = false
  /\ build_context SAMPLE_REPR EMPTY_RECORD = []
  /\ call_local_qa NO_MODELS (lit "What are her skills?")
       (build_context SAMPLE_REPR EMPTY_RECORD) 1
     = VDict [(lit "answer", VStr NO_ANSWER)].
Proof.
  split; [reflexivity|].
  apply (@empty_record_no_answer SAMPLE_REPR NO_MODELS EMPTY_RECORD
           (lit "What are her skills?") 1); [|reflexivity].
  intros k Hk. unfold CONTEXT_KEYS in Hk. simpl in Hk.
  repeat (destruct Hk as [<-|Hk]; [reflexivity|]). destruct Hk.
Defined.

Lemma ask_candidate_model_answer_witness :
  ask_candidate SAMPLE_REPR MODELS_ECHO SAMPLE_FIND_ONE (lit "c1") SAMPLE_BODY
  = Ok [ (lit "candidate_id", VStr (lit "c1"));
         (lit "question", VStr (lit "What university did she attend"));
         (lit "answer", VStr SAMPLE_CONTEXT) ].
Proof.
  apply (@ask_candidate_model_answer SAMPLE_REPR MODELS_ECHO ECHO_QA SAMPLE_FIND_ONE
           (lit "c1") SAMPLE_BODY (lit "What university did she attend") SAMPLE_DOC
           (VDict [(lit "answer", VStr SAMPLE_CONTEXT)])
           [(lit "answer", VStr SAMPLE_CONTEXT)] [] (VStr SAMPLE_CONTEXT));
    try reflexivity; try discriminate.
  left. reflexivity.
Defined.

Lemma ask_candidate_model_no_answer_witness :
  ask_candidate SAMPLE_REPR MODELS_EMPTY_ANSWER SAMPLE_FIND_ONE (lit "c1") SAMPLE_BODY
  = Ok [ (lit "candidate_id", VStr (lit "c1"));
         (lit "question", VStr (lit "What university did she attend"));
         (lit "answer", VStr (SAMPLE_REPR (VDict [(lit "answer", VStr [])]))) ].
Proof.
  apply (@ask_candidate_model_no_answer SAMPLE_REPR MODELS_EMPTY_ANSWER
           EMPTY_ANSWER_QA SAMPLE_FIND_ONE (lit "c1") SAMPLE_BODY
           (lit "What university did she attend") SAMPLE_DOC
           [(lit "answer", VStr [])]);
    try reflexivity; discriminate.
Defined.


Lemma upload_resume_stores_record_witness :
  exists doc resp text r,
    upload_resume SAMPLE_REPR GLOBALS_LOADED SAMPLE_IO SAMPLE_FILENAME = Ok (doc, resp)
    /\ upload_text SAMPLE_IO SAMPLE_FILENAME = inl text
    /\ build_structured_fields text
         (Some (call_local_ner GLOBALS_LOADED (slice_to 45000 text))) = Ok r
    /\ map fst doc = UPLOAD_KEYS ++ map fst SCHEMA
    /\ (forall k, In k (map fst SCHEMA) -> assoc doc k = assoc r k)
    /\ dict_get doc (lit "file_name") = VStr SAMPLE_FILENAME
    /\ dict_get doc (lit "raw_text_snippet") = VStr (slice_to 3000 text)
    /\ (len (slice_to 3000 text) <= 3000)%Z
    /\ (exists rest, text = slice_to 3000 text ++ rest)
    /\ resp = JSONResponse 201
                [ (lit "message", VStr (lit "Uploaded and processed"));
                  (lit "candidate_id", dict_get doc (lit "candidate_id")) ].
Proof.
  eexists. eexists.
  destruct (@upload_resume_stores_record SAMPLE_REPR GLOBALS_LOADED SAMPLE_IO
              SAMPLE_FILENAME _ _ eq_refl) as (text & r & H).
  exists text, r. split; [reflexivity|exact H].
Defined.

Lemma upload_resume_metadata_failure_witness :
  exists doc resp,
    upload_resume SAMPLE_REPR GLOBALS_LOADED SAMPLE_IO SAMPLE_FILENAME = Ok (doc, resp)
    /\ dict_get doc (lit "candidate_id") = VStr (lit "f1")
    /\ resp = JSONResponse 201
                [ (lit "message", VStr (lit "Uploaded and processed"));
                  (lit "candidate_id", VStr (lit "f1")) ].
Proof.
  eexists. eexists. split; [reflexivity|].
  apply (@upload_resume_metadata_failure SAMPLE_REPR GLOBALS_LOADED SAMPLE_IO
           SAMPLE_FILENAME); [|reflexivity].
  left. eexists. reflexivity.
Defined.

Lemma list_candidates_after_upload_witness :
  exists doc content text r,
    upload_resume SAMPLE_REPR GLOBALS_LOADED SAMPLE_IO SAMPLE_FILENAME
    = Ok (doc, JSONResponse 201 content)
    /\ upload_text SAMPLE_IO SAMPLE_FILENAME = inl text
    /\ build_structured_fields text
         (Some (call_local_ner GLOBALS_LOADED (slice_to 45000 text))) = Ok r
    /\ nth_error (list_candidates ([SAMPLE_DOC] ++ doc :: [])) (length [SAMPLE_DOC])
       = Some [ (lit "candidate_id", dict_get content (lit "candidate_id"));
                (lit "name", dict_get r (lit "name"));
                (lit "skills", dict_get r (lit "skills"));
                (lit "uploaded_at", io_now SAMPLE_IO);
                (lit "brief_intro", dict_get r (lit "introduction")) ].
Proof.
  eexists. eexists.
  destruct (@list_candidates_after_upload SAMPLE_REPR GLOBALS_LOADED SAMPLE_IO
              SAMPLE_FILENAME _ _ 201 [SAMPLE_DOC] [] eq_refl) as (text & r & H).
  exists text, r. split; [reflexivity|exact H].
Defined.

Lemma build_context_after_upload_witness :
  exists doc resp text r,
    upload_resume SAMPLE_REPR GLOBALS_LOADED SAMPLE_IO SAMPLE_FILENAME = Ok (doc, resp)
    /\ upload_text SAMPLE_IO SAMPLE_FILENAME = inl text
    /\ build_structured_fields text
         (Some (call_local_ner GLOBALS_LOADED (slice_to 45000 text))) = Ok r
    /\ build_context SAMPLE_REPR doc = build_context SAMPLE_REPR r.
Proof.
  eexists. eexists.
  destruct (@build_context_after_upload SAMPLE_REPR GLOBALS_LOADED SAMPLE_IO
              SAMPLE_FILENAME _ _ eq_refl) as (text & r & H).
  exists text, r. split; [reflexivity|exact H].
Defined.
